(** * turso-cli, [internal/cmd/db_shell.go]: reference resolution, credential
    hand-over and query dispatch of the [db shell] command.

    The command is embedded shallowly.  Go strings are byte strings and are
    modelled by [string] (a list of 8-bit [ascii]).  A function with effects
    returns its value together with the events it caused, in program order:
    the calls on the spinner and the calls that leave the process (directory
    listing, token issuance, the shell front end, HTTP). *)

From Stdlib Require Import Bool Arith ZArith Lia List Ascii String DecimalString.
Import ListNotations.

Local Open Scope list_scope.
Local Open Scope string_scope.

(** ** Go errors and [(value, error)] results *)

Inductive error : Type :=
| errorString (msg : string)                 (* errors.New, fmt.Errorf without a verb *)
| wrapError (msg : string) (err : error)     (* fmt.Errorf("msg: %w", err) *)
| EscapeError (s : string)                   (* url.EscapeError *)
| InvalidHostError (s : string)              (* url.InvalidHostError *)
| urlError (Op URL : string) (Err : error)   (* *url.Error *)
| UnresolvedDatabaseError (name : string).   (* getDatabase: no database of that name *)

Inductive result (A : Type) : Type :=
| Ok (a : A)
| Err (e : error).

Arguments Ok {A} a.
Arguments Err {A} e.

(** ** Bytes *)

Definition byte_le (a b : ascii) : bool := Nat.leb (nat_of_ascii a) (nat_of_ascii b).

(** [lo <= c && c <= hi] *)
Definition between (lo hi c : ascii) : bool := byte_le lo c && byte_le c hi.

Definition dquote : ascii := "034"%char.
Definition newline : string := String "010"%char "".

(** ** Package [strings] (the functions the program and [net/url] call) *)

Module strings.

(** [s[i:]] *)
Definition from (i : nat) (s : string) : string :=
  substring i (String.length s - i) s.

(** [s[:i]] *)
Definition upto (i : nat) (s : string) : string := substring 0 i s.

Definition HasPrefix (s pre : string) : bool := prefix pre s.

(** [len(s) >= len(suffix) && s[len(s)-len(suffix):] == suffix] *)
Definition HasSuffix (s suffix : string) : bool :=
  Nat.leb (String.length suffix) (String.length s)
  && (from (String.length s - String.length suffix) s =? suffix).

Fixpoint Index_from (i : nat) (s substr : string) : option nat :=
  if prefix substr s then Some i
  else match s with
       | EmptyString => None
       | String _ s' => Index_from (S i) s' substr
       end.

(** [strings.Index]; [None] stands for -1. *)
Definition Index (s substr : string) : option nat := Index_from 0 s substr.

Fixpoint LastIndex_from (i : nat) (s substr : string) : option nat :=
  match s with
  | EmptyString => if prefix substr s then Some i else None
  | String _ s' =>
      match LastIndex_from (S i) s' substr with
      | Some j => Some j
      | None => if prefix substr s then Some i else None
      end
  end.

Definition LastIndex (s substr : string) : option nat := LastIndex_from 0 s substr.

Definition Contains (s substr : string) : bool :=
  match Index s substr with Some _ => true | None => false end.

(** [strings.Count] for a one-byte separator. *)
Fixpoint CountByte (s : string) (c : ascii) : nat :=
  match s with
  | EmptyString => 0
  | String a s' => (if Ascii.eqb a c then 1 else 0) + CountByte s' c
  end.

(** [strings.Cut] *)
Definition Cut (s sep : string) : string * string * bool :=
  match Index s sep with
  | Some i => (upto i s, from (i + String.length sep) s, true)
  | None => (s, "", false)
  end.

Definition lower (c : ascii) : ascii :=
  if between "A" "Z" c then ascii_of_nat (nat_of_ascii c + 32) else c.

(** [strings.ToLower] on the ASCII letters (its only use is on a scheme). *)
Fixpoint ToLower (s : string) : string :=
  match s with
  | EmptyString => EmptyString
  | String c s' => String (lower c) (ToLower s')
  end.

(** [strings.TrimSuffix] *)
Definition TrimSuffix (s suffix : string) : string :=
  if HasSuffix s suffix then upto (String.length s - String.length suffix) s else s.

End strings.

(** ** Package [net/url] of the Go standard library (as of Go 1.20)

    [isURL] and [databaseFromURL] call [url.ParseRequestURI], and
    [http.NewRequestWithContext] calls [url.Parse]; both are the library's
    [parse] with the flag [viaRequest] set or not.  The fields [RawPath] and
    [RawFragment] (encoding hints for printing a URL back) are not kept, and
    the message of an invalid port does not quote the port. *)

Module url.

Record Userinfo : Type := mkUserinfo {
  username : string;
  password : string;
  passwordSet : bool
}.

Record URL : Type := mkURL {
  Scheme : string;
  Opaque : string;
  User : option Userinfo;
  Host : string;
  Path : string;
  OmitHost : bool;
  ForceQuery : bool;
  RawQuery : string;
  Fragment : string
}.

Inductive encoding : Type :=
| encodePath | encodePathSegment | encodeHost | encodeZone
| encodeUserPassword | encodeQueryComponent | encodeFragment.

Definition is_host_mode (mode : encoding) : bool :=
  match mode with encodeHost | encodeZone => true | _ => false end.

Definition isLetter (c : ascii) : bool := between "a" "z" c || between "A" "Z" c.
Definition isDigit (c : ascii) : bool := between "0" "9" c.

Definition ishex (c : ascii) : bool :=
  between "0" "9" c || between "a" "f" c || between "A" "F" c.

Definition unhex (c : ascii) : nat :=
  if between "0" "9" c then nat_of_ascii c - 48
  else if between "a" "f" c then nat_of_ascii c - 97 + 10
  else if between "A" "F" c then nat_of_ascii c - 65 + 10
  else 0.

Definition one_of (c : ascii) (set : string) : bool :=
  negb (Nat.eqb (strings.CountByte set c) 0).

(** [shouldEscape(c, encodeHost)], the only mode [unescape] asks about. *)
Definition shouldEscape_host (c : ascii) : bool :=
  if isLetter c || isDigit c then false
  else if one_of c "!$&'()*+,;=:[]<>" || Ascii.eqb c dquote then false
  else if one_of c "-_.~" then false
  else true.

Fixpoint stringContainsCTLByte (s : string) : bool :=
  match s with
  | EmptyString => false
  | String b s' =>
      Nat.ltb (nat_of_ascii b) 32 || Nat.eqb (nat_of_ascii b) 127 || stringContainsCTLByte s'
  end.

Fixpoint getScheme_loop (i : nat) (rest rawURL : string) : result (string * string) :=
  match rest with
  | EmptyString => Ok ("", rawURL)
  | String c rest' =>
      if isLetter c then getScheme_loop (S i) rest' rawURL
      else if isDigit c || one_of c "+-." then
        if Nat.eqb i 0 then Ok ("", rawURL) else getScheme_loop (S i) rest' rawURL
      else if Ascii.eqb c ":" then
        if Nat.eqb i 0 then Err (errorString "missing protocol scheme")
        else Ok (strings.upto i rawURL, rest')
      else Ok ("", rawURL)
  end.

Definition getScheme (rawURL : string) : result (string * string) :=
  getScheme_loop 0 rawURL rawURL.

(** First loop of [unescape]: counts the escapes, checks that they are
    well formed, and notes a ['+'] in query mode. *)
Fixpoint unescape_scan (mode : encoding) (s : string) (n : nat) (hasPlus : bool)
  : result (nat * bool) :=
  match s with
  | EmptyString => Ok (n, hasPlus)
  | String c s1 =>
      if Ascii.eqb c "%" then
        match s1 with
        | String a (String b s3) =>
            if ishex a && ishex b then
              let esc := String c (String a (String b "")) in
              if match mode with encodeHost => true | _ => false end
                 && Nat.ltb (unhex a) 8 && negb (esc =? "%25")
              then Err (EscapeError esc)
              else if match mode with encodeZone => true | _ => false end
                      && negb (esc =? "%25")
                      && negb (Nat.eqb (unhex a * 16 + unhex b) 32)
                      && shouldEscape_host (ascii_of_nat (unhex a * 16 + unhex b))
              then Err (EscapeError esc)
              else unescape_scan mode s3 (S n) hasPlus
            else Err (EscapeError (strings.upto 3 s))
        | _ => Err (EscapeError (strings.upto 3 s))
        end
      else if Ascii.eqb c "+" then
        unescape_scan mode s1 n
          (match mode with encodeQueryComponent => true | _ => false end)
      else if is_host_mode mode && Nat.ltb (nat_of_ascii c) 128 && shouldEscape_host c
      then Err (InvalidHostError (String c ""))
      else unescape_scan mode s1 n hasPlus
  end.

(** Second loop of [unescape]: decodes. *)
Fixpoint unescape_build (mode : encoding) (s : string) : string :=
  match s with
  | EmptyString => EmptyString
  | String c s1 =>
      if Ascii.eqb c "%" then
        match s1 with
        | String a (String b s3) =>
            String (ascii_of_nat (unhex a * 16 + unhex b)) (unescape_build mode s3)
        | _ => EmptyString
        end
      else if Ascii.eqb c "+" then
        String (match mode with encodeQueryComponent => " "%char | _ => "+"%char end)
               (unescape_build mode s1)
      else String c (unescape_build mode s1)
  end.

Definition unescape (s : string) (mode : encoding) : result string :=
  match unescape_scan mode s 0 false with
  | Err e => Err e
  | Ok (n, hasPlus) =>
      if Nat.eqb n 0 && negb hasPlus then Ok s else Ok (unescape_build mode s)
  end.

Fixpoint all_digits (s : string) : bool :=
  match s with
  | EmptyString => true
  | String b s' => isDigit b && all_digits s'
  end.

Definition validOptionalPort (port : string) : bool :=
  match port with
  | EmptyString => true
  | String c ds => Ascii.eqb c ":" && all_digits ds
  end.

Fixpoint validUserinfo (s : string) : bool :=
  match s with
  | EmptyString => true
  | String r s' =>
      (isLetter r || isDigit r || one_of r "-._:~!$&'()*+,;=%@") && validUserinfo s'
  end.

Definition parseHost (host : string) : result string :=
  let plain := unescape host encodeHost in
  if strings.HasPrefix host "[" then
    match strings.LastIndex host "]" with
    | None => Err (errorString "missing ']' in host")
    | Some i =>
        let colonPort := strings.from (i + 1) host in
        if negb (validOptionalPort colonPort)
        then Err (errorString "invalid port after host")
        else
          match strings.Index (strings.upto i host) "%25" with
          | Some zone =>
              match unescape (strings.upto zone host) encodeHost with
              | Err e => Err e
              | Ok host1 =>
                  match unescape (substring zone (i - zone) host) encodeZone with
                  | Err e => Err e
                  | Ok host2 =>
                      match unescape (strings.from i host) encodeHost with
                      | Err e => Err e
                      | Ok host3 => Ok (host1 ++ host2 ++ host3)
                      end
                  end
              end
          | None => plain
          end
    end
  else
    match strings.LastIndex host ":" with
    | Some i =>
        if negb (validOptionalPort (strings.from i host))
        then Err (errorString "invalid port after host")
        else plain
    | None => plain
    end.

Definition parseAuthority (authority : string) : result (option Userinfo * string) :=
  let i := strings.LastIndex authority "@" in
  match parseHost (match i with
                   | None => authority
                   | Some i => strings.from (i + 1) authority
                   end) with
  | Err e => Err e
  | Ok host =>
      match i with
      | None => Ok (None, host)
      | Some i =>
          let userinfo := strings.upto i authority in
          if negb (validUserinfo userinfo)
          then Err (errorString "net/url: invalid userinfo")
          else if negb (strings.Contains userinfo ":") then
            match unescape userinfo encodeUserPassword with
            | Err e => Err e
            | Ok u => Ok (Some (mkUserinfo u "" false), host)
            end
          else
            let '(username, password, _) := strings.Cut userinfo ":" in
            match unescape username encodeUserPassword with
            | Err e => Err e
            | Ok u =>
                match unescape password encodeUserPassword with
                | Err e => Err e
                | Ok p => Ok (Some (mkUserinfo u p true), host)
                end
            end
      end
  end.

(** The tail of [parse], from the authority on. *)
Definition parse_authority_path (scheme rest rawQuery : string)
           (forceQuery viaRequest : bool) : result URL :=
  let finish (user : option Userinfo) (host rest : string) (omitHost : bool) :=
    match unescape rest encodePath with      (* url.setPath(rest) *)
    | Err e => Err e
    | Ok path => Ok (mkURL scheme "" user host path omitHost forceQuery rawQuery "")
    end in
  if (negb (scheme =? "")
      || (negb viaRequest && negb (strings.HasPrefix rest "///")))
     && strings.HasPrefix rest "//"
  then
    let authority := strings.from 2 rest in
    let '(authority, rest) :=
      match strings.Index authority "/" with
      | Some i => (strings.upto i authority, strings.from i authority)
      | None => (authority, "")
      end in
    match parseAuthority authority with
    | Err e => Err e
    | Ok (user, host) => finish user host rest false
    end
  else if negb (scheme =? "") && strings.HasPrefix rest "/"
  then finish None "" rest true
  else finish None "" rest false.

Definition parse (rawURL : string) (viaRequest : bool) : result URL :=
  if stringContainsCTLByte rawURL
  then Err (errorString "net/url: invalid control character in URL")
  else if (rawURL =? "") && viaRequest then Err (errorString "empty url")
  else if rawURL =? "*" then Ok (mkURL "" "" None "" "*" false false "" "")
  else
    match getScheme rawURL with
    | Err e => Err e
    | Ok (scheme, rest) =>
        let scheme := strings.ToLower scheme in
        let '(rest, forceQuery, rawQuery) :=
          if strings.HasSuffix rest "?" && Nat.eqb (strings.CountByte rest "?") 1
          then (strings.upto (String.length rest - 1) rest, true, "")
          else let '(before, after, _) := strings.Cut rest "?" in
               (before, false, after) in
        if negb (strings.HasPrefix rest "/") then
          if negb (scheme =? "") then
            (* rootless paths are opaque *)
            Ok (mkURL scheme rest None "" "" false forceQuery rawQuery "")
          else if viaRequest then Err (errorString "invalid URI for request")
          else if strings.Contains (fst (fst (strings.Cut rest "/"))) ":"
          then Err (errorString "first path segment in URL cannot contain colon")
          else parse_authority_path scheme rest rawQuery forceQuery viaRequest
        else parse_authority_path scheme rest rawQuery forceQuery viaRequest
    end.

Definition ParseRequestURI (rawURL : string) : result URL :=
  match parse rawURL true with
  | Err e => Err (urlError "parse" rawURL e)
  | Ok u => Ok u
  end.

Definition Parse (rawURL : string) : result URL :=
  let '(u, frag, _) := strings.Cut rawURL "#" in
  match parse u false with
  | Err e => Err (urlError "parse" u e)
  | Ok url =>
      if frag =? "" then Ok url
      else match unescape frag encodeFragment with   (* url.setFragment(frag) *)
           | Err e => Err (urlError "parse" rawURL e)
           | Ok f =>
               Ok (mkURL (Scheme url) (Opaque url) (User url) (Host url) (Path url)
                         (OmitHost url) (ForceQuery url) (RawQuery url) f)
           end
  end.

Definition splitHostPort (hostPort : string) : string * string :=
  let '(host, port) :=
    match strings.LastIndex hostPort ":" with
    | Some colon =>
        if validOptionalPort (strings.from colon hostPort)
        then (strings.upto colon hostPort, strings.from (colon + 1) hostPort)
        else (hostPort, "")
    | None => (hostPort, "")
    end in
  if strings.HasPrefix host "[" && strings.HasSuffix host "]"
  then (substring 1 (String.length host - 2) host, port)
  else (host, port).

(** [u.Hostname()]: [u.Host] without a valid port number and without the
    square brackets of an IPv6 literal. *)
Definition Hostname (u : URL) : string := fst (splitHostPort (Host u)).

End url.

(** ** Package [internal/turso]: what the command uses of the REST client *)

Module turso.

Record Database : Type := mkDatabase {
  ID : string;
  Name : string;
  Hostname : string
}.

(** The client talks to the service; what the service answers to the two
    calls made here is a parameter of the model. *)
Record Client : Type := mkClient {
  list_response : result (list Database);
  token_response : string -> string -> bool -> result string
}.

End turso.

(** ** Package [net/http]: requests *)

Module http.

Record Request : Type := mkRequest {
  Method : string;
  URL : url.URL;
  Header : list (string * string);
  Body : string;
  Host : string
}.

Definition hasPort (s : string) : bool :=
  match strings.LastIndex s ":", strings.LastIndex s "]" with
  | Some i, Some j => Nat.ltb j i
  | Some _, None => true
  | None, _ => false
  end.

Definition removeEmptyPort (host : string) : string :=
  if hasPort host then strings.TrimSuffix host ":" else host.

(** [u.Host = host] *)
Definition setHost (u : url.URL) (host : string) : url.URL :=
  url.mkURL (url.Scheme u) (url.Opaque u) (url.User u) host (url.Path u)
            (url.OmitHost u) (url.ForceQuery u) (url.RawQuery u) (url.Fragment u).

(** [http.NewRequestWithContext] for a valid method and a non-nil context
    (a context is a value of an abstract type, which has no nil): it fails
    exactly when [url.Parse] does. *)
Definition NewRequestWithContext {Ctx : Type} (ctx : Ctx)
           (method rawurl body : string) : result Request :=
  match url.Parse rawurl with
  | Err e => Err e
  | Ok u =>
      let host := removeEmptyPort (url.Host u) in
      Ok (mkRequest method (setHost u host) [] body host)
  end.

(** [req.Header.Add(key, value)] *)
Definition Header_Add (req : Request) (key value : string) : Request :=
  mkRequest (Method req) (URL req) (Header req ++ [(key, value)])%list (Body req) (Host req).

End http.

(** ** JSON values, as [encoding/json] sees the request structure *)

#[local] Set Warnings "-register-all".

Inductive json : Type :=
| JString (s : string)
| JArray (elems : list json)
| JObject (fields : list (string * json)).

(** ** Effects

    What the command does to the outside is a sequence of events, in program
    order. *)

Inductive Event : Type :=
| SpinnerStart                          (* spinner.Start() *)
| SpinnerStop                           (* spinner.Stop() *)
| DatabasesList                         (* client.Databases.List() *)
| DatabasesToken (name expiration : string) (readOnly : bool)
                                        (* client.Databases.Token(...) *)
| ShellRun (DbPath WelcomeMessage : string)          (* shell.RunShell(config) *)
| ShellRunLine (DbPath WelcomeMessage line : string) (* shell.RunShellLine(config, line) *)
| ShellConnected                        (* the front end has its connection *)
| ShellStatement (sql : string)         (* the front end executes a statement *)
| HttpDo (req : http.Request).          (* http.DefaultClient.Do(req) *)

Definition IO (A : Type) : Type := A * list Event.

Definition ret {A} (a : A) : IO A := (a, []).

Definition bind {A B} (c : IO A) (k : A -> IO B) : IO B :=
  let '(a, t1) := c in
  let '(b, t2) := k a in
  (b, (t1 ++ t2)%list).

Definition emit (e : Event) : IO unit := (tt, [e]).

Arguments bind : simpl never.

Definition value {A} (c : IO A) : A := fst c.
Definition trace {A} (c : IO A) : list Event := snd c.

Notation "x <- c ;; k" := (bind c (fun x => k))
  (at level 61, c at next level, right associativity).
Notation "c ;;; k" := (bind c (fun _ => k))
  (at level 61, right associativity).

(** ** [internal/cmd/db_shell.go] *)

Definition Databases_List (client : turso.Client) : IO (result (list turso.Database)) :=
  emit DatabasesList ;;; ret (turso.list_response client).

Definition Databases_Token (client : turso.Client) (name expiration : string)
           (readOnly : bool) : IO (result string) :=
  emit (DatabasesToken name expiration readOnly) ;;;
  ret (turso.token_response client name expiration readOnly).

(** Modelled from the spec: [getDatabase] is declared in a file of package
    [cmd] that is not among the sources.  Section 4.2: the reference is looked
    up by exact name match in the known databases; not found is an
    unresolved-database error. *)
Definition getDatabase (client : turso.Client) (name : string)
  : IO (result turso.Database) :=
  r <- Databases_List client ;;
  match r with
  | Err e => ret (Err e)
  | Ok dbs =>
      match find (fun db => turso.Name db =? name) dbs with
      | Some db => ret (Ok db)
      | None => ret (Err (UnresolvedDatabaseError name))
      end
  end.

Definition isURL (s : string) : bool :=
  match url.ParseRequestURI s with
  | Ok _ => true
  | Err _ => false
  end.

(** The loop of [databaseFromURL]:
    [for _, db := range dbs { if strings.HasSuffix(host, db.Hostname) { return &db, nil } }] *)
Fixpoint range_dbs (host : string) (dbs : list turso.Database) : option turso.Database :=
  match dbs with
  | [] => None
  | db :: dbs' =>
      if strings.HasSuffix host (turso.Hostname db) then Some db
      else range_dbs host dbs'
  end.

(** A [*turso.Database] is an [option]: [nil] is [None]. *)
Definition databaseFromURL (dbURL : string) (client : turso.Client)
  : IO (result (option turso.Database)) :=
  match url.ParseRequestURI dbURL with
  | Err e => ret (Err e)
  | Ok parsed =>
      r <- Databases_List client ;;
      match r with
      | Err e => ret (Err e)
      | Ok dbs => ret (Ok (range_dbs (url.Hostname parsed) dbs))
      end
  end.

Definition databaseFromNameOrURL (str : string) (client : turso.Client)
  : IO (result (option turso.Database)) :=
  if isURL str then databaseFromURL str client
  else
    let name := str in
    r <- getDatabase client name ;;
    match r with
    | Err e => ret (Err e)
    | Ok db => ret (Ok (Some db))
    end.

Definition tokenFromDb (db : option turso.Database) (client : turso.Client)
  : IO (result string) :=
  match db with
  | None => ret (Ok "")
  | Some db => Databases_Token client (turso.Name db) "1d" false
  end.

(** [fmt.Sprintf("%s?jwt=%s", dbUrl, token)] *)
Definition addTokenAsQueryParameter (dbUrl token : string) : string :=
  dbUrl ++ "?jwt=" ++ token.

(** *** The shell front end ([libsql-shell-go], an external collaborator)

    The front end receives the configuration, which holds the command's
    callback, and is run on one line or as a loop.  What it does is a
    parameter: a script of the moments at which it has its connection (it then
    invokes the callback) and of the statements it executes, and its
    outcome. *)

Inductive enums_HistoryMode : Type := PerDatabaseHistory.

Record ShellConfig : Type := mkShellConfig {
  DbPath : string;
  HistoryMode : enums_HistoryMode;
  HistoryName : string;
  WelcomeMessage : string;
  AfterDbConnectionCallback : IO unit
}.

Inductive ShellStep : Type :=
| Connected
| Statement (sql : string).

Record ShellScript : Type := mkShellScript {
  steps : list ShellStep;
  outcome : option error
}.

Fixpoint front_end (config : ShellConfig) (todo : list ShellStep) : IO unit :=
  match todo with
  | [] => ret tt
  | Connected :: todo' =>
      emit ShellConnected ;;;
      AfterDbConnectionCallback config ;;;
      front_end config todo'
  | Statement sql :: todo' =>
      emit (ShellStatement sql) ;;;
      front_end config todo'
  end.

Definition spinner_Start : IO unit := emit SpinnerStart.
Definition spinner_Stop : IO unit := emit SpinnerStop.

Section Shell.

(** [*settings.Settings] *)
Variable Settings : Type.

(** The collaborators of the command that are not in the sources. *)
Record Env : Type := mkEnv {
  createTursoClientFromAccessToken : bool -> result turso.Client;
  ReadSettings : result Settings;
  getDatabaseHttpUrl : Settings -> turso.Database -> string;
  getDatabaseUrl : Settings -> turso.Database -> bool -> string;
  Emph : string -> string;                              (* internal.Emph *)
  RunShell_script : string -> ShellScript;              (* by DbPath *)
  RunShellLine_script : string -> string -> ShellScript (* by DbPath and line *)
}.

Variable env : Env.

Definition RunShell (config : ShellConfig) : IO (option error) :=
  let script := RunShell_script env (DbPath config) in
  emit (ShellRun (DbPath config) (WelcomeMessage config)) ;;;
  front_end config (steps script) ;;;
  ret (outcome script).

Definition RunShellLine (config : ShellConfig) (line : string) : IO (option error) :=
  let script := RunShellLine_script env (DbPath config) line in
  emit (ShellRunLine (DbPath config) (WelcomeMessage config) line) ;;;
  front_end config (steps script) ;;;
  ret (outcome script).

Definition getConnectionInfo (nameOrUrl : string) (db : option turso.Database)
           (config : Settings) : string :=
  let msg :=
    match db with
    | Some db =>
        let url := getDatabaseUrl env config db false in
        "Connected to " ++ Emph env (turso.Name db) ++ " at " ++ url
    | None => "Connected to " ++ nameOrUrl
    end in
  let msg := msg ++ newline ++ newline in
  let msg := msg ++ "Welcome to Turso SQL shell!" ++ newline ++ newline in
  msg ++ "Type " ++ String dquote ".quit" ++ String dquote " to exit the shell and "
      ++ String dquote ".help" ++ String dquote " to list all available commands."
      ++ newline ++ newline.

(** The part of [RunE] after the spinner is set up ([cmd.SilenceUsage] and
    the streams of the configuration play no part here and are left out). *)
Definition RunE_body (args : list string) (nameOrUrl : string) : IO (option error) :=
  match createTursoClientFromAccessToken env true with
  | Err err => ret (Some (wrapError "could not create turso client" err))
  | Ok client =>
  match ReadSettings env with
  | Err err => ret (Some (wrapError "could not read settings" err))
  | Ok config =>
  r <- databaseFromNameOrURL nameOrUrl client ;;
  match r with
  | Err err => ret (Some err)
  | Ok db =>
  r <- tokenFromDb db client ;;
  match r with
  | Err err => ret (Some err)
  | Ok token =>
  let dbUrl :=
    match db with
    | Some d => addTokenAsQueryParameter (getDatabaseHttpUrl env config d) token
    | None => nameOrUrl
    end in
  let connectionInfo := getConnectionInfo nameOrUrl db config in
  let shellConfig :=
    mkShellConfig dbUrl PerDatabaseHistory "turso" connectionInfo spinner_Stop in
  if Nat.eqb (List.length args) 2 then
    if Nat.eqb (String.length (nth 1 args "")) 0
    then ret (Some (errorString "no SQL command to execute"))
    else RunShellLine shellConfig (nth 1 args "")
  else RunShell shellConfig
  end end end end.

(** [RunE]; the deferred [spinner.Stop()] runs when the function returns,
    whatever it returns.  [args[0]] exists: [shellCmd] checks the number of
    arguments first. *)
Definition RunE (args : list string) : IO (option error) :=
  let nameOrUrl := nth 0 args "" in
  if nameOrUrl =? "" then ret (Some (errorString "please specify a database name"))
  else if Nat.eqb (List.length args) 1 then
    spinner_Start ;;;
    r <- RunE_body args nameOrUrl ;;
    spinner_Stop ;;;
    ret r
  else RunE_body args nameOrUrl.

(** [shellCmd]: [Args: cobra.RangeArgs(1, 2)] is checked before [RunE]. *)
Definition shellCmd (args : list string) : IO (option error) :=
  let n := List.length args in
  if Nat.ltb n 1 || Nat.ltb 2 n
  then ret (Some (errorString ("accepts between 1 and 2 arg(s), received "
                               ++ NilEmpty.string_of_uint (Nat.to_uint n))))
  else RunE args.

End Shell.

Arguments mkEnv {Settings}.
Arguments createTursoClientFromAccessToken {Settings}.
Arguments ReadSettings {Settings}.
Arguments getDatabaseHttpUrl {Settings}.
Arguments getDatabaseUrl {Settings}.
Arguments Emph {Settings}.
Arguments RunShell_script {Settings}.
Arguments RunShellLine_script {Settings}.
Arguments RunShell {Settings}.
Arguments RunShellLine {Settings}.
Arguments getConnectionInfo {Settings}.
Arguments RunE_body {Settings}.
Arguments RunE {Settings}.
Arguments shellCmd {Settings}.

(** *** Query dispatch *)

Record QueryRequest : Type := mkQueryRequest {
  Statements : list string            (* `json:"statements"` *)
}.

(** The JSON value [json.Marshal] builds for a [QueryRequest]: an object with
    the field named by the tag.  A slice is a list here, so a nil slice (which
    would encode as [null]) is not told apart from an empty one. *)
Definition QueryRequest_json (r : QueryRequest) : json :=
  JObject [("statements", JArray (map JString (Statements r)))].

Section Dispatch.

Variables Ctx Response : Type.

(** [sqlparser.SplitStatementToPieces] (third party) *)
Variable SplitStatementToPieces : string -> result (list string).
(** the byte encoder of [json.Marshal] *)
Variable json_Marshal : json -> result string.
(** what the server answers to a request *)
Variable server : http.Request -> result Response.

Definition DefaultClient_Do (req : http.Request) : IO (result Response) :=
  emit (HttpDo req) ;;; ret (server req).

Definition doQueryContext (ctx : Ctx) (url token stmt : string)
  : IO (result Response) :=
  match SplitStatementToPieces stmt with
  | Err err => ret (Err err)
  | Ok stmts =>
  let rawReq := mkQueryRequest stmts in
  match json_Marshal (QueryRequest_json rawReq) with
  | Err err => ret (Err err)
  | Ok body =>
  match http.NewRequestWithContext ctx "POST" url body with
  | Err err => ret (Err err)
  | Ok req =>
  let req :=
    if negb (token =? "")
    then http.Header_Add req "Authorization" ("Bearer " ++ token)
    else req in
  DefaultClient_Do req
  end end end.

End Dispatch.

Arguments DefaultClient_Do {Response}.
Arguments doQueryContext {Ctx Response}.

(** * Vocabulary of the statements *)

(** [suffix] really is a suffix of [s]. *)
Definition is_suffix_of (suffix s : string) : Prop := exists p, s = p ++ suffix.

(** [x] is the first element of [l], in the order of [l], that satisfies [P]. *)
Definition first_such {A : Type} (P : A -> Prop) (l : list A) (x : A) : Prop :=
  exists before after,
    l = (before ++ x :: after)%list /\ P x /\ forall y, In y before -> ~ P y.

Definition is_start (ev : Event) : bool :=
  match ev with SpinnerStart => true | _ => false end.

Definition is_stop (ev : Event) : bool :=
  match ev with SpinnerStop => true | _ => false end.

Definition is_connected (ev : Event) : bool :=
  match ev with ShellConnected => true | _ => false end.

Definition is_token_request (ev : Event) : bool :=
  match ev with DatabasesToken _ _ _ => true | _ => false end.

(** The events of the shell front end: it is started, connects, executes. *)
Definition is_shell_event (ev : Event) : bool :=
  match ev with
  | ShellRun _ _ | ShellRunLine _ _ _ | ShellConnected | ShellStatement _ => true
  | _ => false
  end.

Definition is_http (ev : Event) : bool :=
  match ev with HttpDo _ => true | _ => false end.

(** Number of events of a kind in a trace. *)
Definition count (p : Event -> bool) (t : list Event) : nat :=
  List.length (filter p t).

(** The last step of [RunE], named for the statements below: one line, or the
    loop. *)
Definition session {Settings : Type} (env : Env Settings) (args : list string)
           (shellConfig : ShellConfig) : IO (option error) :=
  if Nat.eqb (List.length args) 2 then
    if Nat.eqb (String.length (nth 1 args "")) 0
    then ret (Some (errorString "no SQL command to execute"))
    else RunShellLine env shellConfig (nth 1 args "")
  else RunShell env shellConfig.

(** * Concrete inputs

    A directory with the two databases of the scenarios, a service that issues
    tokens, and a front end that connects once and then executes. *)

Module Scenario.

Definition my_db : turso.Database :=
  turso.mkDatabase "4a6e" "my-db" "my-db-org.example.io".

Definition replica_db : turso.Database :=
  turso.mkDatabase "9c1f" "other-db" "my-db-replica.example.io".

Definition unnamed_host_db : turso.Database :=
  turso.mkDatabase "0000" "fresh-db" "".

Definition client : turso.Client :=
  turso.mkClient (Ok [my_db; replica_db]) (fun name _ _ => Ok ("tok." ++ name)).

Definition env : Env unit :=
  mkEnv (fun _ => Ok client) (Ok tt)
        (fun _ db => "https://" ++ turso.Hostname db)
        (fun _ db _ => "libsql://" ++ turso.Hostname db)
        (fun s => s)
        (fun _ => mkShellScript [Connected; Statement "select 1"; Statement "select 2"] None)
        (fun _ line => mkShellScript [Connected; Statement line] None).

(** A stand-in for the third-party statement splitter, to run the
    dispatcher: it cuts at the semicolons outside single quotes and rejects
    an unterminated quote. *)
Fixpoint split_loop (s : string) (inQuote : bool) (piece : string)
  : result (list string) :=
  match s with
  | EmptyString =>
      if inQuote then Err (errorString "syntax error: unterminated quote")
      else Ok (if piece =? "" then [] else [piece])
  | String c s' =>
      if Ascii.eqb c "'" then split_loop s' (negb inQuote) (piece ++ String c "")
      else if Ascii.eqb c ";" && negb inQuote then
        match split_loop s' false "" with
        | Ok pieces => Ok (piece :: pieces)
        | Err e => Err e
        end
      else split_loop s' inQuote (piece ++ String c "")
  end.

Definition split (s : string) : result (list string) := split_loop s false "".

(** A stand-in for the encoder: it prints the structure and does not escape. *)
Fixpoint encode (j : json) : string :=
  match j with
  | JString s => String dquote s ++ String dquote ""
  | JArray elems => "[" ++ concat "," (map encode elems) ++ "]"
  | JObject fields =>
      "{" ++ concat "," (map (fun kv => String dquote (fst kv) ++ String dquote ":"
                                        ++ encode (snd kv)) fields) ++ "}"
  end.

Definition marshal (j : json) : result string := Ok (encode j).

Definition server (req : http.Request) : result string := Ok "{}".

End Scenario.

(** ** Further vocabulary for [db_shell.go] *)

Definition is_list (ev : Event) : bool :=
  match ev with DatabasesList => true | _ => false end.

(** The front end is started. *)
Definition is_shell_start (ev : Event) : bool :=
  match ev with ShellRun _ _ | ShellRunLine _ _ _ => true | _ => false end.

(** What the front end itself does when its callback is that of [shellCmd]. *)
Definition front_end_event (ev : Event) : Prop :=
  ev = ShellConnected \/ ev = SpinnerStop \/ exists sql, ev = ShellStatement sql.

(** The events of [RunE] around its body: the spinner of interactive mode. *)
Definition with_spinner (args : list string) (t : list Event) : list Event :=
  if Nat.eqb (List.length args) 1 then SpinnerStart :: t ++ [SpinnerStop] else t.

(** The fixed end of the welcome message. *)
Definition welcome_help : string :=
  newline ++ newline ++ "Welcome to Turso SQL shell!" ++ newline ++ newline
  ++ "Type " ++ String dquote ".quit" ++ String dquote " to exit the shell and "
  ++ String dquote ".help" ++ String dquote " to list all available commands."
  ++ newline ++ newline.

(** What [shellCmd] does before the front end is started. *)
Definition preparation_event (ev : Event) : Prop :=
  ev = SpinnerStart \/ ev = DatabasesList
  \/ exists name, ev = DatabasesToken name "1d" false.

(** The start of the front end in a run that returns [r], if it is started:
    the front end was given the line of the command line, or none, and [r] is
    what it returned. *)
Definition front_end_start {Settings : Type} (env : Env Settings) (args : list string)
           (r : option error) (starts : list Event) : Prop :=
  starts = []
  \/ (exists path welcome,
         starts = [ShellRun path welcome]
         /\ List.length args <> 2
         /\ r = outcome (RunShell_script env path))
  \/ (exists path welcome,
         starts = [ShellRunLine path welcome (nth 1 args "")]
         /\ List.length args = 2
         /\ nth 1 args "" <> ""
         /\ r = outcome (RunShellLine_script env path (nth 1 args ""))).

(** * [internal/cmd/db_create.go] *)

(** [settings.DatabaseSettings], as built by the command. *)
Module settings.

Record DatabaseSettings : Type := mkDatabaseSettings {
  Name : string;
  Username : string;
  Password : string
}.

End settings.

Module db_create.

(** [128 << 20] *)
Definition maxFileSize : Z := Z.shiftl 128 20.

(** The answer of [client.Databases.Create]. *)
Record CreateDatabaseResponse : Type := mkCreateDatabaseResponse {
  Database : turso.Database;
  Username : string;
  Password : string
}.

Section Create.

(** [*settings.Settings], the generator of [codename], and [*os.File]. *)
Variables Settings Rng File : Type.

(** The REST client: what the service answers to the calls made here.  The
    answer to [Databases.Delete] is not looked at by the command, and of the
    answer of [Instances.Create] only the error is. *)
Record Client : Type := mkClient {
  create_response : string -> string -> string -> result CreateDatabaseResponse;
  seed_response : string -> File -> option error;
  instance_response : string -> string -> string -> string -> string -> option error
}.

(** What the command does to the outside, in program order. *)
Inductive Effect : Type :=
| Open (path : string)                      (* os.Open(path) *)
| Close (f : File)                          (* f.Close() *)
| SpinnerNew (text : string)                (* prompt.Spinner(text) *)
| BarStop                                   (* bar.Stop() *)
| DatabasesCreate (name region image : string)
| DatabasesSeed (name : string) (f : File)
| DatabasesDelete (name : string)
| InstancesCreate (dbName instanceName password region image : string)
| Printf (text : string)                    (* fmt.Printf *)
| AddDatabase (id : string) (s : settings.DatabaseSettings)
| InvalidateDbNamesCache
| RegisterUse (kind : string).

Definition Cmd (A : Type) : Type := A * list Effect.

Definition pure {A} (a : A) : Cmd A := (a, []).

Definition andThen {A B} (c : Cmd A) (k : A -> Cmd B) : Cmd B :=
  let '(a, t1) := c in
  let '(b, t2) := k a in
  (b, (t1 ++ t2)%list).

Definition effect (e : Effect) : Cmd unit := (tt, [e]).

Definition result_of {A} (c : Cmd A) : A := fst c.
Definition effects {A} (c : Cmd A) : list Effect := snd c.

Notation "x <~ c ;; k" := (andThen c (fun x => k))
  (at level 61, c at next level, right associativity).
Notation "c ~~ k" := (andThen c (fun _ => k))
  (at level 61, right associativity).

(** The flags of the command (package-level variables) and its collaborators
    that are not in the sources. *)
Record Env : Type := mkEnv {
  locationFlag : string;
  canary : bool;
  fromFileFlag : string;
  ReadSettings : result Settings;
  DefaultRNG : result Rng;                         (* codename.DefaultRNG() *)
  Generate : Rng -> Z -> string;                   (* codename.Generate(rng, 0) *)
  createTursoClient : result Client;
  isValidRegion : Client -> string -> bool;
  probeClosestRegion : string;
  toLocation : Client -> string -> string;
  Emph : string -> string;                         (* internal.Emph *)
  os_Open : string -> result File;
  Stat_Size : File -> result Z;                    (* f.Stat(), then stat.Size() *)
  isSQLiteFile : File -> result bool;
  elapsed_seconds : Z;                             (* int(time.Since(start).Seconds()) *)
  first_use : bool                                 (* config.RegisterUse("db_create") *)
}.

Variable env : Env.

(** [getDbFile]; a [*os.File] is an [option]: [nil] is [None].  The function
    reads the flag, not its parameter. *)
Definition getDbFile (path : string) : Cmd (result (option File)) :=
  if fromFileFlag env =? "" then pure (Ok None)
  else
    effect (Open (fromFileFlag env)) ~~
    match os_Open env (fromFileFlag env) with
    | Err err => pure (Err (wrapError ("can't open " ++ fromFileFlag env) err))
    | Ok f =>
    match Stat_Size env f with
    | Err err => pure (Err (wrapError ("can't stat " ++ fromFileFlag env) err))
    | Ok size =>
    if Z.gtb size maxFileSize
    then pure (Err (errorString "only files up to 128MiB are supported"))
    else
    match isSQLiteFile env f with
    | Err err => pure (Err (wrapError ("error while reading " ++ fromFileFlag env) err))
    | Ok valid =>
    if negb valid
    then pure (Err (errorString (fromFileFlag env ++ " doesn't seem to be a SQLite file")))
    else pure (Ok (Some f))
    end end end.

Definition tab : string := String "009"%char "".

(** The pencil sign of the hint, in UTF-8. *)
Definition pencil : string :=
  String "226"%char (String "156"%char (String "143"%char
    (String "239"%char (String "184"%char (String "143"%char ""))))).

(** [%d] *)
Definition itoa (n : Z) : string := NilZero.string_of_int (Z.to_int n).

(** From [client.Instances.Create] to the end of [RunE]. *)
Definition create_instance (client : Client) (name region image regionText : string)
           (res : CreateDatabaseResponse) (dbSettings : settings.DatabaseSettings)
  : Cmd (option error) :=
  effect (InstancesCreate name "" (Password res) region image) ~~
  match instance_response client name "" (Password res) region image with
  | Some err => pure (Some err)
  | None =>
  effect BarStop ~~
  effect (Printf ("Created database " ++ Emph env name ++ " in " ++ Emph env regionText
                  ++ " in " ++ itoa (elapsed_seconds env) ++ " seconds."
                  ++ newline ++ newline)) ~~
  effect (Printf ("You can start an interactive SQL shell with:" ++ newline ++ newline)) ~~
  effect (Printf ("   turso db shell " ++ name ++ newline ++ newline)) ~~
  effect (Printf ("To see information about the database, including a connection URL, run:"
                  ++ newline ++ newline)) ~~
  effect (Printf ("   turso db show " ++ name ++ newline ++ newline)) ~~
  effect (AddDatabase (turso.ID (Database res)) dbSettings) ~~
  effect InvalidateDbNamesCache ~~
  effect (RegisterUse "db_create") ~~
  let firstTime := first_use env in
  (if firstTime
   then effect (Printf (pencil ++ "  Now that you created a database, the next step is "
                        ++ "to create a replica. Why don't we try?" ++ newline ++ tab
                        ++ Emph env "turso db locations" ++ newline ++ tab
                        ++ Emph env ("turso db replicate " ++ name ++ " [location]")
                        ++ newline))
   else pure tt) ~~
  pure None
  end.

(** From [client.Databases.Create] on; the caller has deferred [bar.Stop()]. *)
Definition create_database (client : Client) (name region image regionText : string)
           (dbFile : option File) : Cmd (option error) :=
  effect (DatabasesCreate name region image) ~~
  match create_response client name region image with
  | Err err => pure (Some (wrapError ("could not create database " ++ name) err))
  | Ok res =>
  let dbSettings :=
    settings.mkDatabaseSettings (turso.Name (Database res)) (Username res) (Password res) in
  match dbFile with
  | Some f =>
      (* defer dbFile.Close() *)
      r <~ (effect (DatabasesSeed name f) ~~
            match seed_response client name f with
            | Some err =>
                effect (DatabasesDelete name) ~~
                pure (Some (wrapError ("could not create database " ++ name) err))
            | None => create_instance client name region image regionText res dbSettings
            end) ;;
      effect (Close f) ~~
      pure r
  | None => create_instance client name region image regionText res dbSettings
  end
  end.

Definition RunE (args : list string) : Cmd (option error) :=
  match ReadSettings env with
  | Err err => pure (Some err)
  | Ok config =>
  match
    (if Nat.eqb (List.length args) 0 || (nth 0 args "" =? "")
     then match DefaultRNG env with
          | Err err => Err err
          | Ok rng => Ok (Generate env rng 0%Z)
          end
     else Ok (nth 0 args ""))
  with
  | Err err => pure (Some err)
  | Ok name =>
  match createTursoClient env with
  | Err err => pure (Some err)
  | Ok client =>
  let region := locationFlag env in
  if negb (region =? "") && negb (isValidRegion env client region)
  then pure (Some (errorString ("location '" ++ region ++ "' is not a valid one")))
  else
  let region := if region =? "" then probeClosestRegion env else region in
  let image := if canary env then "canary" else "latest" in
  let regionText := toLocation env client region ++ " (" ++ region ++ ")" in
  r <~ getDbFile (fromFileFlag env) ;;
  match r with
  | Err err => pure (Some err)
  | Ok dbFile =>
  let dbText :=
    if negb (fromFileFlag env =? "")
    then " from file " ++ Emph env (fromFileFlag env)
    else "" in
  let description :=
    "Creating database " ++ Emph env name ++ dbText ++ " in "
    ++ Emph env regionText ++ " " in
  effect (SpinnerNew description) ~~
  (* defer bar.Stop() *)
  r <~ create_database client name region image regionText dbFile ;;
  effect BarStop ~~
  pure r
  end end end end.

(** [createCmd]: [Args: cobra.MaximumNArgs(1)] is checked before [RunE]. *)
Definition createCmd (args : list string) : Cmd (option error) :=
  let n := List.length args in
  if Nat.ltb 1 n
  then pure (Some (errorString ("accepts at most 1 arg(s), received "
                                ++ NilEmpty.string_of_uint (Nat.to_uint n))))
  else RunE args.

(** The name under which the database is created: the argument when there is
    a non-empty one, a generated code name otherwise. *)
Definition chosen_name (args : list string) : result string :=
  if Nat.eqb (List.length args) 0 || (nth 0 args "" =? "")
  then match DefaultRNG env with
       | Err err => Err err
       | Ok rng => Ok (Generate env rng 0%Z)
       end
  else Ok (nth 0 args "").

End Create.

Arguments mkClient {File}.
Arguments create_response {File}.
Arguments seed_response {File}.
Arguments instance_response {File}.
Arguments Open {File}.
Arguments Close {File}.
Arguments SpinnerNew {File}.
Arguments BarStop {File}.
Arguments DatabasesCreate {File}.
Arguments DatabasesSeed {File}.
Arguments DatabasesDelete {File}.
Arguments InstancesCreate {File}.
Arguments Printf {File}.
Arguments AddDatabase {File}.
Arguments InvalidateDbNamesCache {File}.
Arguments RegisterUse {File}.
Arguments pure {File A}.
Arguments andThen {File A B}.
Arguments effect {File}.
Arguments result_of {File A}.
Arguments effects {File A}.
Arguments mkEnv {Settings Rng File}.
Arguments locationFlag {Settings Rng File}.
Arguments canary {Settings Rng File}.
Arguments fromFileFlag {Settings Rng File}.
Arguments ReadSettings {Settings Rng File}.
Arguments DefaultRNG {Settings Rng File}.
Arguments Generate {Settings Rng File}.
Arguments createTursoClient {Settings Rng File}.
Arguments isValidRegion {Settings Rng File}.
Arguments probeClosestRegion {Settings Rng File}.
Arguments toLocation {Settings Rng File}.
Arguments Emph {Settings Rng File}.
Arguments os_Open {Settings Rng File}.
Arguments Stat_Size {Settings Rng File}.
Arguments isSQLiteFile {Settings Rng File}.
Arguments elapsed_seconds {Settings Rng File}.
Arguments first_use {Settings Rng File}.
Arguments getDbFile {Settings Rng File}.
Arguments create_instance {Settings Rng File}.
Arguments create_database {Settings Rng File}.
Arguments RunE {Settings Rng File}.
Arguments createCmd {Settings Rng File}.
Arguments chosen_name {Settings Rng File}.
Arguments andThen : simpl never.

End db_create.

(** ** Vocabulary for [db_create.go] *)

Definition is_spinner_new {File : Type} (e : db_create.Effect File) : bool :=
  match e with db_create.SpinnerNew _ => true | _ => false end.

Definition is_bar_stop {File : Type} (e : db_create.Effect File) : bool :=
  match e with db_create.BarStop => true | _ => false end.

Definition is_open {File : Type} (e : db_create.Effect File) : bool :=
  match e with db_create.Open _ => true | _ => false end.

Definition is_close {File : Type} (e : db_create.Effect File) : bool :=
  match e with db_create.Close _ => true | _ => false end.

Definition is_printf {File : Type} (e : db_create.Effect File) : bool :=
  match e with db_create.Printf _ => true | _ => false end.

(** Number of effects of a kind. *)
Definition how_many {File : Type} (p : db_create.Effect File -> bool)
           (t : list (db_create.Effect File)) : nat :=
  List.length (filter p t).

(** The region and the image the command asks for. *)
Definition requested_region {Settings Rng File : Type}
           (env : db_create.Env Settings Rng File) : string :=
  if db_create.locationFlag env =? "" then db_create.probeClosestRegion env
  else db_create.locationFlag env.

Definition requested_image {Settings Rng File : Type}
           (env : db_create.Env Settings Rng File) : string :=
  if db_create.canary env then "canary" else "latest".

(** Concrete inputs for [db create]: files are named by their path. *)
Module CreateScenario.

Definition response : db_create.CreateDatabaseResponse :=
  db_create.mkCreateDatabaseResponse
    (turso.mkDatabase "77aa" "my-db" "my-db-org.example.io") "admin" "s3cret".

(** A service that creates, but cannot seed from [broken.db]. *)
Definition client : db_create.Client string :=
  db_create.mkClient
    (fun _ _ _ => Ok response)
    (fun _ f => if f =? "broken.db" then Some (errorString "seed rejected") else None)
    (fun _ _ _ _ _ => None).

Definition env (location fromFile : string) : db_create.Env unit unit string :=
  db_create.mkEnv location false fromFile
                  (Ok tt) (Ok tt) (fun _ _ => "brave-otter")
                  (Ok client) (fun _ region => region =? "ams") "fra"
                  (fun _ region => "Somewhere") (fun s => s)
                  (fun path => if path =? "missing.db"
                               then Err (errorString "no such file") else Ok path)
                  (fun f => Ok (if f =? "huge.db" then 134217729%Z else 134217728%Z))
                  (fun f => Ok (negb (f =? "notes.txt")))
                  3%Z true.

(** A service whose instance creation fails. *)
Definition no_instance_client : db_create.Client string :=
  db_create.mkClient (fun _ _ _ => Ok response) (fun _ _ => None)
                     (fun _ _ _ _ _ => Some (errorString "quota")).

Definition env_no_instance : db_create.Env unit unit string :=
  db_create.mkEnv "" true ""
                  (Ok tt) (Ok tt) (fun _ _ => "brave-otter")
                  (Ok no_instance_client)
                  (fun _ _ => true) "fra" (fun _ _ => "Somewhere") (fun s => s)
                  (fun path => Ok path) (fun _ => Ok 10%Z) (fun _ => Ok true)
                  3%Z false.

End CreateScenario.

(** ** The ways [db create] can run

    One rule for each way through [createCmd]: what the collaborators answered,
    what the command returns and what it did. *)

Section CreatePaths.

Context {Settings Rng File : Type}.
Variable env : db_create.Env Settings Rng File.

(** The text shown next to the region. *)
Definition region_text (client : db_create.Client File) : string :=
  db_create.toLocation env client (requested_region env)
  ++ " (" ++ requested_region env ++ ")".

(** The text of the spinner. *)
Definition spinner_text (client : db_create.Client File) (name : string) : string :=
  "Creating database " ++ db_create.Emph env name
  ++ (if negb (db_create.fromFileFlag env =? "")
      then " from file " ++ db_create.Emph env (db_create.fromFileFlag env)
      else "")
  ++ " in " ++ db_create.Emph env (region_text client) ++ " ".

(** The arguments are accepted and settings, name, client and location are
    there. *)
Definition ready (args : list string) (config : Settings) (name : string)
           (client : db_create.Client File) : Prop :=
  List.length args <= 1
  /\ db_create.ReadSettings env = Ok config
  /\ db_create.chosen_name env args = Ok name
  /\ db_create.createTursoClient env = Ok client
  /\ (db_create.locationFlag env = ""
      \/ db_create.isValidRegion env client (db_create.locationFlag env) = true).

Definition seed_effects (name : string) (dbFile : option File)
  : list (db_create.Effect File) :=
  match dbFile with
  | Some f => [db_create.DatabasesSeed name f]
  | None => []
  end.

Definition close_effects (dbFile : option File) : list (db_create.Effect File) :=
  match dbFile with
  | Some f => [db_create.Close f]
  | None => []
  end.

(** The seed, when there is one, was accepted. *)
Definition seeded (client : db_create.Client File) (name : string)
           (dbFile : option File) : Prop :=
  match dbFile with
  | Some f => db_create.seed_response client name f = None
  | None => True
  end.

(** What a successful run prints and stores, after the instance is there. *)
Definition report (client : db_create.Client File) (name : string)
           (res : db_create.CreateDatabaseResponse)
  : list (db_create.Effect File) :=
  [db_create.Printf
     ("Created database " ++ db_create.Emph env name ++ " in "
      ++ db_create.Emph env (region_text client) ++ " in "
      ++ db_create.itoa (db_create.elapsed_seconds env) ++ " seconds."
      ++ newline ++ newline);
   db_create.Printf ("You can start an interactive SQL shell with:" ++ newline ++ newline);
   db_create.Printf ("   turso db shell " ++ name ++ newline ++ newline);
   db_create.Printf
     ("To see information about the database, including a connection URL, run:"
      ++ newline ++ newline);
   db_create.Printf ("   turso db show " ++ name ++ newline ++ newline);
   db_create.AddDatabase
     (turso.ID (db_create.Database res))
     (settings.mkDatabaseSettings (turso.Name (db_create.Database res))
                                  (db_create.Username res) (db_create.Password res));
   db_create.InvalidateDbNamesCache;
   db_create.RegisterUse "db_create"]
  ++ (if db_create.first_use env
      then [db_create.Printf
              (db_create.pencil
               ++ "  Now that you created a database, the next step is "
               ++ "to create a replica. Why don't we try?" ++ newline ++ db_create.tab
               ++ db_create.Emph env "turso db locations" ++ newline ++ db_create.tab
               ++ db_create.Emph env ("turso db replicate " ++ name ++ " [location]")
               ++ newline)]
      else []).

Inductive create_path (args : list string)
  : option error -> list (db_create.Effect File) -> Prop :=
| path_too_many_args :
    1 < List.length args ->
    create_path args
      (Some (errorString ("accepts at most 1 arg(s), received "
                          ++ NilEmpty.string_of_uint (Nat.to_uint (List.length args)))))
      []
| path_no_settings err :
    List.length args <= 1 ->
    db_create.ReadSettings env = Err err ->
    create_path args (Some err) []
| path_no_name config err :
    List.length args <= 1 ->
    db_create.ReadSettings env = Ok config ->
    db_create.chosen_name env args = Err err ->
    create_path args (Some err) []
| path_no_client config name err :
    List.length args <= 1 ->
    db_create.ReadSettings env = Ok config ->
    db_create.chosen_name env args = Ok name ->
    db_create.createTursoClient env = Err err ->
    create_path args (Some err) []
| path_unknown_location config name client :
    List.length args <= 1 ->
    db_create.ReadSettings env = Ok config ->
    db_create.chosen_name env args = Ok name ->
    db_create.createTursoClient env = Ok client ->
    db_create.locationFlag env <> "" ->
    db_create.isValidRegion env client (db_create.locationFlag env) = false ->
    create_path args
      (Some (errorString ("location '" ++ db_create.locationFlag env
                          ++ "' is not a valid one")))
      []
| path_bad_file config name client err opened :
    ready args config name client ->
    db_create.getDbFile env (db_create.fromFileFlag env) = (Err err, opened) ->
    create_path args (Some err) opened
| path_not_created config name client dbFile opened err :
    ready args config name client ->
    db_create.getDbFile env (db_create.fromFileFlag env) = (Ok dbFile, opened) ->
    db_create.create_response client name (requested_region env) (requested_image env)
    = Err err ->
    create_path args
      (Some (wrapError ("could not create database " ++ name) err))
      (opened
         ++ [db_create.SpinnerNew (spinner_text client name);
             db_create.DatabasesCreate name (requested_region env) (requested_image env);
             db_create.BarStop])
| path_not_seeded config name client f opened res err :
    ready args config name client ->
    db_create.getDbFile env (db_create.fromFileFlag env) = (Ok (Some f), opened) ->
    db_create.create_response client name (requested_region env) (requested_image env)
    = Ok res ->
    db_create.seed_response client name f = Some err ->
    create_path args
      (Some (wrapError ("could not create database " ++ name) err))
      (opened
         ++ [db_create.SpinnerNew (spinner_text client name);
             db_create.DatabasesCreate name (requested_region env) (requested_image env);
             db_create.DatabasesSeed name f;
             db_create.DatabasesDelete name;
             db_create.Close f;
             db_create.BarStop])
| path_no_instance config name client dbFile opened res err :
    ready args config name client ->
    db_create.getDbFile env (db_create.fromFileFlag env) = (Ok dbFile, opened) ->
    db_create.create_response client name (requested_region env) (requested_image env)
    = Ok res ->
    seeded client name dbFile ->
    db_create.instance_response client name "" (db_create.Password res)
                                (requested_region env) (requested_image env)
    = Some err ->
    create_path args
      (Some err)
      (opened
         ++ [db_create.SpinnerNew (spinner_text client name);
             db_create.DatabasesCreate name (requested_region env) (requested_image env)]
         ++ seed_effects name dbFile
         ++ [db_create.InstancesCreate name "" (db_create.Password res)
                                       (requested_region env) (requested_image env)]
         ++ close_effects dbFile
         ++ [db_create.BarStop])
| path_created config name client dbFile opened res :
    ready args config name client ->
    db_create.getDbFile env (db_create.fromFileFlag env) = (Ok dbFile, opened) ->
    db_create.create_response client name (requested_region env) (requested_image env)
    = Ok res ->
    seeded client name dbFile ->
    db_create.instance_response client name "" (db_create.Password res)
                                (requested_region env) (requested_image env)
    = None ->
    create_path args
      None
      (opened
         ++ [db_create.SpinnerNew (spinner_text client name);
             db_create.DatabasesCreate name (requested_region env) (requested_image env)]
         ++ seed_effects name dbFile
         ++ [db_create.InstancesCreate name "" (db_create.Password res)
                                       (requested_region env) (requested_image env);
             db_create.BarStop]
         ++ report client name res
         ++ close_effects dbFile
         ++ [db_create.BarStop]).

End CreatePaths.

(** Further concrete inputs: services that fail. *)
Module Outage.

(** Creation is refused. *)
Definition refusing_client : db_create.Client string :=
  db_create.mkClient (fun _ _ _ => Err (errorString "quota"))
                     (fun _ _ => None) (fun _ _ _ _ _ => None).

Definition create_env : db_create.Env unit unit string :=
  db_create.mkEnv "" false "seed.db"
                  (Ok tt) (Ok tt) (fun _ _ => "brave-otter")
                  (Ok refusing_client)
                  (fun _ _ => true) "fra" (fun _ _ => "Somewhere") (fun s => s)
                  (fun path => Ok path) (fun _ => Ok 10%Z) (fun _ => Ok true)
                  3%Z false.

(** [db shell] with a given answer to the creation of the client. *)
Definition shell_env (client : result turso.Client) : Env unit :=
  mkEnv (fun _ => client) (Ok tt)
        (fun _ db => "https://" ++ turso.Hostname db)
        (fun _ db _ => "libsql://" ++ turso.Hostname db)
        (fun s => s)
        (fun _ => mkShellScript [Connected; Statement "select 1"]
                                (Some (errorString "connection lost")))
        (fun _ line => mkShellScript [Connected; Statement line] None).

Definition no_listing : turso.Client :=
  turso.mkClient (Err (errorString "service unavailable")) (fun _ _ _ => Ok "t").

Definition no_token : turso.Client :=
  turso.mkClient (Ok [Scenario.my_db]) (fun _ _ _ => Err (errorString "not allowed")).

(** The request of the dispatcher to the endpoint of the scenario, with a
    given header. *)
Definition request (header : list (string * string)) : http.Request :=
  http.mkRequest
    "POST"
    (url.mkURL "https" "" None "my-db-org.example.io" "" false false "" "")
    header
    (Scenario.encode (JObject [("statements", JArray [JString "select 1"])]))
    "my-db-org.example.io".

End Outage.

(** * Properties *)

(** ** Strings *)

Lemma strlen_app (s1 s2 : string) :
  String.length (s1 ++ s2) = String.length s1 + String.length s2.
Proof.
  induction s1 as [|c s1 IH]; simpl; [reflexivity | now rewrite IH].
Qed.

Lemma substring_whole (s : string) : substring 0 (String.length s) s = s.
Proof.
  induction s as [|c s IH]; simpl; [reflexivity | now rewrite IH].
Qed.

Lemma substring_past (p q : string) :
  substring (String.length p) (String.length q) (p ++ q) = q.
Proof.
  induction p as [|c p IH]; simpl; [apply substring_whole | exact IH].
Qed.

Lemma substring_split (s : string) :
  forall n, n <= String.length s ->
  s = strings.upto n s ++ strings.from n s.
Proof.
  unfold strings.upto, strings.from.
  induction s as [|c s IH]; intros n Hn; simpl in *.
  - replace n with 0 by lia. reflexivity.
  - destruct n as [|n]; simpl.
    + now rewrite substring_whole.
    + f_equal. apply IH. lia.
Qed.

Lemma HasSuffix_spec (s suffix : string) :
  strings.HasSuffix s suffix = true <-> is_suffix_of suffix s.
Proof.
  unfold strings.HasSuffix, is_suffix_of. split.
  - intros H. apply andb_true_iff in H as [Hlen Heq].
    apply Nat.leb_le in Hlen. apply String.eqb_eq in Heq.
    remember (String.length s - String.length suffix) as n eqn:Hn.
    exists (strings.upto n s). rewrite <- Heq. apply substring_split. lia.
  - intros [p ->]. apply andb_true_iff. split.
    + apply Nat.leb_le. rewrite strlen_app. lia.
    + apply String.eqb_eq. unfold strings.from. rewrite strlen_app.
      replace (String.length p + String.length suffix - String.length suffix)
        with (String.length p) by lia.
      replace (String.length p + String.length suffix - String.length p)
        with (String.length suffix) by lia.
      apply substring_past.
Qed.

Lemma HasSuffix_empty (s : string) : strings.HasSuffix s "" = true.
Proof.
  apply HasSuffix_spec. exists s. induction s as [|c s IH]; simpl; congruence.
Qed.

(** ** Scanning a listing for its first entry with a property *)

Section FirstSuch.

Context {A : Type}.

Lemma find_Some_first (f : A -> bool) (l : list A) (x : A) :
  find f l = Some x <-> first_such (fun y => f y = true) l x.
Proof.
  unfold first_such. induction l as [|a l IH]; simpl.
  - split; [discriminate | intros (before & after & H & _)].
    destruct before; discriminate.
  - destruct (f a) eqn:Ha; split.
    + intros [= <-]. exists [], l. simpl. repeat split; auto.
    + intros (before & after & Hl & Hx & Hb).
      destruct before as [|b before]; simpl in Hl; injection Hl as E1 E2.
      * now rewrite E1.
      * exfalso. apply (Hb b); [now left | congruence].
    + intros H. apply IH in H as (before & after & -> & Hx & Hb).
      exists (a :: before), after. simpl. repeat split; auto.
      intros y [<- | Hy]; [congruence | now apply Hb].
    + intros (before & after & Hl & Hx & Hb).
      destruct before as [|b before]; simpl in Hl; injection Hl as E1 E2.
      * congruence.
      * apply IH. exists before, after. repeat split; auto.
        intros y Hy. apply Hb. now right.
Qed.

Lemma find_None_all (f : A -> bool) (l : list A) :
  find f l = None <-> forall y, In y l -> f y <> true.
Proof.
  induction l as [|a l IH]; simpl.
  - split; [intros _ y [] | reflexivity].
  - destruct (f a) eqn:Ha; split.
    + discriminate.
    + intros H. exfalso. apply (H a); auto.
    + intros H y [<- | Hy]; [congruence | now apply IH].
    + intros H. apply IH. intros y Hy. apply H. now right.
Qed.

End FirstSuch.

Lemma range_dbs_find (host : string) (dbs : list turso.Database) :
  range_dbs host dbs = find (fun db => strings.HasSuffix host (turso.Hostname db)) dbs.
Proof.
  induction dbs as [|db dbs IH]; simpl; [reflexivity | now rewrite IH].
Qed.

(** ** The trace of a sequence of steps *)

Lemma trace_bind {A B} (c : IO A) (k : A -> IO B) :
  trace (bind c k) = (trace c ++ trace (k (value c)))%list.
Proof.
  destruct c as [a t1]. unfold bind, trace, value. simpl.
  destruct (k a); reflexivity.
Qed.

Lemma value_bind {A B} (c : IO A) (k : A -> IO B) :
  value (bind c k) = value (k (value c)).
Proof.
  destruct c as [a t1]. unfold bind, value. simpl.
  destruct (k a); reflexivity.
Qed.

(** ** What the request-URI parser accepts *)

Lemma upto_nonempty (i : nat) (s : string) :
  0 < i -> s <> "" -> strings.upto i s <> "".
Proof.
  unfold strings.upto. destruct i; [lia |]. destruct s; [congruence |].
  discriminate.
Qed.

Lemma getScheme_loop_no_scheme (rest rawURL : string) :
  forall i scheme rest',
    rawURL <> "" ->
    url.getScheme_loop i rest rawURL = Ok (scheme, rest') ->
    scheme = "" -> rest' = rawURL.
Proof.
  induction rest as [|c rest IH]; intros i scheme rest' Hne H Hs; simpl in H.
  - congruence.
  - destruct (url.isLetter c); [now apply (IH (S i) scheme) |].
    destruct (url.isDigit c || url.one_of c "+-.").
    + destruct (Nat.eqb i 0); [congruence | now apply (IH (S i) scheme)].
    + destruct (Ascii.eqb c ":"); [| congruence].
      destruct (Nat.eqb i 0) eqn:Hi; [discriminate |].
      injection H as H1 H2. exfalso.
      apply Nat.eqb_neq in Hi.
      apply (upto_nonempty i rawURL); [lia | assumption | congruence].
Qed.

Lemma ToLower_nonempty (s : string) : s <> "" -> strings.ToLower s <> "".
Proof.
  destruct s; [congruence | discriminate].
Qed.

Lemma HasPrefix_slash_upto (k : nat) (s : string) :
  strings.HasPrefix (strings.upto k s) "/" = true -> strings.HasPrefix s "/" = true.
Proof.
  unfold strings.HasPrefix, strings.upto.
  intros H. apply prefix_correct in H. apply prefix_correct.
  destruct s as [|a s]; [destruct k; discriminate |].
  destruct k; [discriminate |]. simpl in *.
  injection H as -> _. destruct s; reflexivity.
Qed.

Lemma parse_authority_path_scheme (scheme rest rawQuery : string)
      (forceQuery viaRequest : bool) (u : url.URL) :
  url.parse_authority_path scheme rest rawQuery forceQuery viaRequest = Ok u ->
  url.Scheme u = scheme.
Proof.
  unfold url.parse_authority_path.
  repeat match goal with
         | |- context [if ?b then _ else _] => destruct b
         | |- context [match ?x with _ => _ end] => destruct x
         end; intros [= <-]; reflexivity.
Qed.

(** An accepted reference is [*], or starts with a slash (an absolute path),
    or has a scheme; a host is not required. *)
Lemma ParseRequestURI_accepts (s : string) (u : url.URL) :
  url.ParseRequestURI s = Ok u ->
  s = "*" \/ strings.HasPrefix s "/" = true \/ url.Scheme u <> "".
Proof.
  unfold url.ParseRequestURI, url.parse.
  destruct (url.stringContainsCTLByte s); [discriminate |].
  destruct (s =? "") eqn:Hempty; [discriminate |]. simpl.
  destruct (s =? "*") eqn:Hstar; [left; now apply String.eqb_eq |].
  apply String.eqb_neq in Hempty.
  destruct (url.getScheme s) as [[scheme rest]|e] eqn:Hscheme; [| discriminate].
  intros H. right.
  destruct (string_dec scheme "") as [Hs | Hs].
  - left.
    pose proof (getScheme_loop_no_scheme s s 0 scheme rest Hempty Hscheme Hs) as ->.
    subst scheme. simpl in H.
    destruct (strings.HasSuffix s "?" && Nat.eqb (strings.CountByte s "?") 1).
    + destruct (strings.HasPrefix (strings.upto (String.length s - 1) s) "/") eqn:Hp;
        [now apply HasPrefix_slash_upto in Hp | discriminate].
    + unfold strings.Cut in H. destruct (strings.Index s "?") as [i|].
      * destruct (strings.HasPrefix (strings.upto i s) "/") eqn:Hp;
          [now apply HasPrefix_slash_upto in Hp | discriminate].
      * destruct (strings.HasPrefix s "/"); [reflexivity | discriminate].
  - right. apply ToLower_nonempty in Hs.
    destruct (strings.HasSuffix rest "?" && Nat.eqb (strings.CountByte rest "?") 1);
      [| destruct (strings.Cut rest "?") as [[before after] found]];
      match type of H with
      | context [strings.HasPrefix ?r "/"] => destruct (strings.HasPrefix r "/")
      end; simpl in H;
      try (destruct (strings.ToLower scheme =? "") eqn:Hl;
           [apply String.eqb_eq in Hl; contradiction |]; simpl in H);
      try (destruct (url.parse_authority_path _ _ _ _ _) as [u'|e'] eqn:Hp;
           [apply parse_authority_path_scheme in Hp | discriminate]);
      injection H as <-; simpl; congruence.
Qed.

(** ** Resolution *)

Lemma isURL_parse (s : string) :
  isURL s = true <-> exists u, url.ParseRequestURI s = Ok u.
Proof.
  unfold isURL. destruct (url.ParseRequestURI s) as [u|e]; split.
  - intros _. now exists u.
  - reflexivity.
  - discriminate.
  - intros [u H]. discriminate.
Qed.

Lemma databaseFromURL_value (dbURL : string) (client : turso.Client)
      (parsed : url.URL) (dbs : list turso.Database) :
  url.ParseRequestURI dbURL = Ok parsed ->
  turso.list_response client = Ok dbs ->
  databaseFromURL dbURL client
  = (Ok (range_dbs (url.Hostname parsed) dbs), [DatabasesList]).
Proof.
  intros Hp Hl. unfold databaseFromURL, Databases_List. rewrite Hp.
  unfold bind, emit, ret. simpl. rewrite Hl. reflexivity.
Qed.

Lemma databaseFromNameOrURL_url (str : string) (client : turso.Client) :
  isURL str = true ->
  databaseFromNameOrURL str client = databaseFromURL str client.
Proof.
  intros H. unfold databaseFromNameOrURL. now rewrite H.
Qed.

Lemma databaseFromNameOrURL_name (str : string) (client : turso.Client)
      (dbs : list turso.Database) :
  isURL str = false ->
  turso.list_response client = Ok dbs ->
  databaseFromNameOrURL str client
  = (match find (fun db => turso.Name db =? str) dbs with
     | Some db => Ok (Some db)
     | None => Err (UnresolvedDatabaseError str)
     end, [DatabasesList]).
Proof.
  intros H Hl. unfold databaseFromNameOrURL, getDatabase, Databases_List.
  rewrite H. unfold bind, emit, ret. simpl. rewrite Hl.
  destruct (find _ dbs); reflexivity.
Qed.

Lemma first_such_ext {A : Type} (P Q : A -> Prop) (l : list A) (x : A) :
  (forall y, P y <-> Q y) -> first_such P l x <-> first_such Q l x.
Proof.
  intros HPQ. unfold first_such.
  split; intros (before & after & Hl & Hx & Hb); exists before, after;
    (split; [exact Hl | split; [now apply HPQ | intros y Hy Hq; apply (Hb y Hy); now apply HPQ]]).
Qed.

Lemma range_dbs_Some (host : string) (dbs : list turso.Database) (db : turso.Database) :
  range_dbs host dbs = Some db
  <-> first_such (fun d => is_suffix_of (turso.Hostname d) host) dbs db.
Proof.
  rewrite range_dbs_find, find_Some_first.
  apply first_such_ext. intros y. apply HasSuffix_spec.
Qed.

Lemma range_dbs_None (host : string) (dbs : list turso.Database) :
  range_dbs host dbs = None
  <-> forall d, In d dbs -> ~ is_suffix_of (turso.Hostname d) host.
Proof.
  rewrite range_dbs_find, find_None_all.
  split; intros H d Hd Hs; apply (H d Hd); now apply HasSuffix_spec.
Qed.

(** C2 as stated fails: the absolute path [/tmp/local.db] has neither a scheme
    nor a host, yet [isURL] accepts it, and resolution takes the URL branch
    (no name lookup, no unresolved-database error). *)
Lemma C2_counterexample_absolute_path :
  isURL "/tmp/local.db" = true
  /\ ~ (exists u, url.ParseRequestURI "/tmp/local.db" = Ok u
                  /\ url.Scheme u <> "" /\ url.Host u <> "")
  /\ value (databaseFromNameOrURL "/tmp/local.db" Scenario.client) = Ok None.
Proof.
  split; [reflexivity | split; [| reflexivity]].
  intros (u & Hu & Hs & _). vm_compute in Hu.
  injection Hu as <-. now apply Hs.
Qed.

(** C2, amended: a reference is treated as a URL exactly when
    [url.ParseRequestURI] accepts it, for which it must be [*], start with a
    slash or have a scheme, but need not have a host; resolution is then that
    of [databaseFromURL].  When the parse fails, the reference is looked up by
    exact name in the listing (the first entry of that name is returned, host
    names play no part), and a name without entry is an unresolved-database
    error. *)
Theorem C2_url_iff_request_uri_parses_else_exact_name
        (str : string) (client : turso.Client) (dbs : list turso.Database)
        (Hlist : turso.list_response client = Ok dbs) :
  (isURL str = true <-> exists u, url.ParseRequestURI str = Ok u)
  /\ (forall u, url.ParseRequestURI str = Ok u ->
                str = "*" \/ strings.HasPrefix str "/" = true \/ url.Scheme u <> "")
  /\ (isURL str = true ->
      databaseFromNameOrURL str client = databaseFromURL str client)
  /\ (isURL str = false ->
      (forall db, value (databaseFromNameOrURL str client) = Ok (Some db)
                  <-> first_such (fun d => turso.Name d = str) dbs db)
      /\ ((forall d, In d dbs -> turso.Name d <> str) ->
          value (databaseFromNameOrURL str client)
          = Err (UnresolvedDatabaseError str))).
Proof.
  split; [apply isURL_parse |].
  split; [apply ParseRequestURI_accepts |].
  split; [apply databaseFromNameOrURL_url |].
  intros Hname. rewrite (databaseFromNameOrURL_name str client dbs Hname Hlist).
  unfold value; simpl. split.
  - intros db.
    rewrite <- (first_such_ext (fun d => (turso.Name d =? str) = true)
                               (fun d => turso.Name d = str) dbs db
                               (fun d => String.eqb_eq (turso.Name d) str)).
    rewrite <- find_Some_first.
    destruct (find _ dbs) as [d|]; split; congruence.
  - intros Hnone.
    assert (Hf : find (fun db => turso.Name db =? str) dbs = None).
    { apply find_None_all. intros d Hd He. apply (Hnone d Hd).
      now apply String.eqb_eq. }
    now rewrite Hf.
Qed.

(** The amended C2 at the bare name [my-db] of the scenario. *)
Lemma C2_witness_my_db :
  (isURL "my-db" = true <-> exists u, url.ParseRequestURI "my-db" = Ok u)
  /\ (forall u, url.ParseRequestURI "my-db" = Ok u ->
                "my-db" = "*" \/ strings.HasPrefix "my-db" "/" = true
                \/ url.Scheme u <> "")
  /\ (isURL "my-db" = true ->
      databaseFromNameOrURL "my-db" Scenario.client
      = databaseFromURL "my-db" Scenario.client)
  /\ (isURL "my-db" = false ->
      (forall db, value (databaseFromNameOrURL "my-db" Scenario.client) = Ok (Some db)
                  <-> first_such (fun d => turso.Name d = "my-db")
                                 [Scenario.my_db; Scenario.replica_db] db)
      /\ ((forall d, In d [Scenario.my_db; Scenario.replica_db] ->
                     turso.Name d <> "my-db") ->
          value (databaseFromNameOrURL "my-db" Scenario.client)
          = Err (UnresolvedDatabaseError "my-db"))).
Proof.
  apply (C2_url_iff_request_uri_parses_else_exact_name
           "my-db" Scenario.client [Scenario.my_db; Scenario.replica_db]).
  reflexivity.
Defined.

(** C3: for a reference that parses as a URL, resolution over a listing
    returns the first database, in listing order, whose [Hostname] is a suffix
    of the host of the URL; when no [Hostname] is such a suffix it returns no
    database and no error (a raw external endpoint). *)
Theorem C3_url_resolves_to_first_hostname_suffix
        (ref : string) (client : turso.Client) (parsed : url.URL)
        (dbs : list turso.Database)
        (Hparse : url.ParseRequestURI ref = Ok parsed)
        (Hlist : turso.list_response client = Ok dbs) :
  let matches d := is_suffix_of (turso.Hostname d) (url.Hostname parsed) in
  (forall db, value (databaseFromNameOrURL ref client) = Ok (Some db)
              <-> first_such matches dbs db)
  /\ (value (databaseFromNameOrURL ref client) = Ok None
      <-> forall d, In d dbs -> ~ matches d)
  /\ (exists r, value (databaseFromNameOrURL ref client) = Ok r).
Proof.
  intros matches.
  assert (Hurl : isURL ref = true) by (apply isURL_parse; now exists parsed).
  rewrite (databaseFromNameOrURL_url ref client Hurl).
  rewrite (databaseFromURL_value ref client parsed dbs Hparse Hlist).
  subst matches. unfold value; simpl. split; [| split].
  - intros db. split; intros H.
    + apply range_dbs_Some. congruence.
    + apply range_dbs_Some in H. congruence.
  - split; intros H.
    + apply range_dbs_None. congruence.
    + apply range_dbs_None in H. congruence.
  - now eexists.
Qed.

(** The port of a URL is not part of the host that is matched. *)
Example resolve_replica_url_with_port :
  value (databaseFromNameOrURL "libsql://e784400f26d083-my-db-replica.example.io:8080"
                               Scenario.client)
  = Ok (Some Scenario.replica_db).
Proof. reflexivity. Qed.

(** C3 at the replica URL of the scenario. *)
Lemma C3_witness_replica_url :
  first_such
    (fun d => is_suffix_of (turso.Hostname d) "e784400f26d083-my-db-replica.example.io")
    [Scenario.my_db; Scenario.replica_db] Scenario.replica_db.
Proof.
  apply (C3_url_resolves_to_first_hostname_suffix
           "libsql://e784400f26d083-my-db-replica.example.io" Scenario.client
           (url.mkURL "libsql" "" None "e784400f26d083-my-db-replica.example.io"
                      "" false false "" "")
           [Scenario.my_db; Scenario.replica_db]);
    reflexivity.
Defined.

(** C10: a database with an empty [Hostname] matches every URL reference (the
    empty string is a suffix of every host), so when such an entry comes first
    in the listing every URL reference resolves to it, whatever its host. *)
Theorem C10_empty_hostname_first_captures_every_url
        (ref : string) (client : turso.Client) (parsed : url.URL)
        (db : turso.Database) (others : list turso.Database)
        (Hparse : url.ParseRequestURI ref = Ok parsed)
        (Hempty : turso.Hostname db = "")
        (Hlist : turso.list_response client = Ok (db :: others)) :
  strings.HasSuffix (url.Hostname parsed) (turso.Hostname db) = true
  /\ value (databaseFromNameOrURL ref client) = Ok (Some db).
Proof.
  assert (Hs : strings.HasSuffix (url.Hostname parsed) (turso.Hostname db) = true)
    by (rewrite Hempty; apply HasSuffix_empty).
  split; [exact Hs |].
  assert (Hurl : isURL ref = true) by (apply isURL_parse; now exists parsed).
  rewrite (databaseFromNameOrURL_url ref client Hurl).
  rewrite (databaseFromURL_value ref client parsed _ Hparse Hlist).
  unfold value; simpl. now rewrite Hs.
Qed.

(** C10 at a URL whose host has nothing in common with the listing. *)
Lemma C10_witness_unrelated_host :
  strings.HasSuffix "elsewhere.example.org" "" = true
  /\ value (databaseFromNameOrURL
              "libsql://elsewhere.example.org"
              (turso.mkClient (Ok [Scenario.unnamed_host_db; Scenario.my_db])
                              (fun _ _ _ => Ok "t")))
     = Ok (Some Scenario.unnamed_host_db).
Proof.
  apply (C10_empty_hostname_first_captures_every_url
           "libsql://elsewhere.example.org"
           (turso.mkClient (Ok [Scenario.unnamed_host_db; Scenario.my_db])
                           (fun _ _ _ => Ok "t"))
           (url.mkURL "libsql" "" None "elsewhere.example.org" "" false false "" "")
           Scenario.unnamed_host_db [Scenario.my_db]);
    reflexivity.
Defined.

(** ** Dispatch *)

Section DispatchProperties.

Context {Ctx Response : Type}.
Variable split : string -> result (list string).
Variable marshal : json -> result string.
Variable server : http.Request -> result Response.

(** Whatever the input, the dispatcher sends at most one request. *)
Lemma doQueryContext_at_most_one_request
      (ctx : Ctx) (endpoint token stmt : string) :
  count is_http (trace (doQueryContext split marshal server ctx endpoint token stmt)) <= 1
  /\ List.length (trace (doQueryContext split marshal server ctx endpoint token stmt)) <= 1.
Proof.
  unfold doQueryContext, count, trace.
  destruct (split stmt) as [stmts|e]; [| simpl; lia].
  destruct (marshal _) as [body|e]; [| simpl; lia].
  destruct (http.NewRequestWithContext _ _ _ _) as [req|e]; [| simpl; lia].
  destruct (token =? ""); simpl; lia.
Qed.

End DispatchProperties.

(** C4: when the statement text splits into a batch, the batch encodes and the
    endpoint is a URL, the dispatcher sends exactly one request, whatever the
    number of statements: a POST to the endpoint whose body is the encoding of
    the object with the one field [statements] holding the batch in order, and
    which has the header [Authorization: Bearer <token>] if and only if the
    token is not empty. *)
Theorem C4_one_post_with_batch_and_bearer_iff_token
        {Ctx Response : Type}
        (split : string -> result (list string))
        (marshal : json -> result string)
        (server : http.Request -> result Response)
        (ctx : Ctx) (endpoint token stmt : string)
        (stmts : list string) (body : string) (u : url.URL)
        (Hsplit : split stmt = Ok stmts)
        (Hbody : marshal (JObject [("statements", JArray (map JString stmts))]) = Ok body)
        (Hurl : url.Parse endpoint = Ok u) :
  exists req,
    doQueryContext split marshal server ctx endpoint token stmt
    = (server req, [HttpDo req])
    /\ http.Method req = "POST"
    /\ http.URL req = http.setHost u (http.removeEmptyPort (url.Host u))
    /\ http.Body req = body
    /\ (token <> "" -> http.Header req = [("Authorization", "Bearer " ++ token)])
    /\ (token = "" -> http.Header req = []).
Proof.
  unfold doQueryContext, QueryRequest_json, http.NewRequestWithContext.
  rewrite Hsplit. simpl. rewrite Hbody, Hurl.
  destruct (token =? "") eqn:Htok; simpl.
  - apply String.eqb_eq in Htok.
    eexists; repeat split; simpl; try reflexivity; intros; congruence.
  - apply String.eqb_neq in Htok.
    eexists; repeat split; simpl; try reflexivity; intros; congruence.
Qed.

(** C4 at a batch of two statements with a token. *)
Lemma C4_witness_two_statements :
  exists req,
    doQueryContext Scenario.split Scenario.marshal Scenario.server tt
                   "https://my-db-org.example.io" "tok.my-db" "select 1;select 2"
    = (Scenario.server req, [HttpDo req])
    /\ http.Method req = "POST"
    /\ http.URL req
       = http.setHost
           (url.mkURL "https" "" None "my-db-org.example.io" "" false false "" "")
           (http.removeEmptyPort "my-db-org.example.io")
    /\ http.Body req
       = Scenario.encode
           (JObject [("statements", JArray [JString "select 1"; JString "select 2"])])
    /\ ("tok.my-db" <> "" -> http.Header req = [("Authorization", "Bearer tok.my-db")])
    /\ ("tok.my-db" = "" -> http.Header req = []).
Proof.
  apply (C4_one_post_with_batch_and_bearer_iff_token
           Scenario.split Scenario.marshal Scenario.server tt
           "https://my-db-org.example.io" "tok.my-db" "select 1;select 2"
           ["select 1"; "select 2"]
           (Scenario.encode
              (JObject [("statements", JArray [JString "select 1"; JString "select 2"])]))
           (url.mkURL "https" "" None "my-db-org.example.io" "" false false "" ""));
    reflexivity.
Defined.

(** C8: when splitting the statement text fails, the dispatcher returns that
    error and has done nothing else: no request is built and none is sent. *)
Theorem C8_split_error_returned_before_any_request
        {Ctx Response : Type}
        (split : string -> result (list string))
        (marshal : json -> result string)
        (server : http.Request -> result Response)
        (ctx : Ctx) (endpoint token stmt : string) (err : error)
        (Hsplit : split stmt = Err err) :
  doQueryContext split marshal server ctx endpoint token stmt = (Err err, []).
Proof.
  unfold doQueryContext. now rewrite Hsplit.
Qed.

(** C8 at a statement with an unterminated quote. *)
Lemma C8_witness_unterminated_quote :
  doQueryContext Scenario.split Scenario.marshal Scenario.server tt
                 "https://my-db-org.example.io" "tok.my-db" "select 'unterminated"
  = (Err (errorString "syntax error: unterminated quote"), []).
Proof.
  apply (C8_split_error_returned_before_any_request
           Scenario.split Scenario.marshal Scenario.server tt
           "https://my-db-org.example.io" "tok.my-db" "select 'unterminated").
  reflexivity.
Defined.

(** ** Counting events *)

Lemma count_app (p : Event -> bool) (t1 t2 : list Event) :
  count p (t1 ++ t2)%list = count p t1 + count p t2.
Proof.
  unfold count. induction t1 as [|ev t1 IH]; simpl; [reflexivity |].
  destruct (p ev); simpl; now rewrite IH.
Qed.

Lemma count_cons (p : Event -> bool) (ev : Event) (t : list Event) :
  count p (ev :: t) = (if p ev then 1 else 0) + count p t.
Proof.
  unfold count. simpl. destruct (p ev); reflexivity.
Qed.

(** ** The pieces of the command *)

Lemma resolution_trace (str : string) (client : turso.Client) :
  (forall db, value (databaseFromNameOrURL str client) = Ok db ->
              trace (databaseFromNameOrURL str client) = [DatabasesList])
  /\ (trace (databaseFromNameOrURL str client) = []
      \/ trace (databaseFromNameOrURL str client) = [DatabasesList]).
Proof.
  unfold databaseFromNameOrURL, databaseFromURL, getDatabase, Databases_List,
    bind, emit, ret.
  destruct (isURL str).
  - destruct (url.ParseRequestURI str) as [parsed|e]; simpl.
    + destruct (turso.list_response client); simpl; auto.
    + split; [discriminate | auto].
  - simpl. destruct (turso.list_response client) as [dbs|e]; simpl; auto.
    destruct (find _ dbs); simpl; auto.
Qed.

Lemma tokenFromDb_trace (db : option turso.Database) (client : turso.Client) :
  tokenFromDb db client
  = match db with
    | None => (Ok "", [])
    | Some d => (turso.token_response client (turso.Name d) "1d" false,
                 [DatabasesToken (turso.Name d) "1d" false])
    end.
Proof.
  destruct db; reflexivity.
Qed.

(** The front end touches the spinner only through the callback: with the
    callback of [shellCmd], it stops the spinner once per connection. *)
Lemma front_end_events (config : ShellConfig) (todo : list ShellStep) :
  AfterDbConnectionCallback config = spinner_Stop ->
  count is_stop (trace (front_end config todo))
  = count is_connected (trace (front_end config todo))
  /\ count is_start (trace (front_end config todo)) = 0
  /\ count is_token_request (trace (front_end config todo)) = 0.
Proof.
  intros Hcb. induction todo as [|step todo (IH1 & IH2 & IH3)].
  - repeat split.
  - destruct step; cbn [front_end]; rewrite ?Hcb;
      unfold bind, emit, spinner_Stop; simpl;
      destruct (front_end config todo) as [u t];
      unfold trace, count in *; simpl in *; repeat split; lia.
Qed.

Section ShellProperties.

Context {Settings : Type}.
Variable env : Env Settings.

Lemma RunShell_trace (config : ShellConfig) :
  trace (RunShell env config)
  = ShellRun (DbPath config) (WelcomeMessage config)
    :: trace (front_end config (steps (RunShell_script env (DbPath config)))).
Proof.
  unfold RunShell. rewrite !trace_bind. simpl. now rewrite app_nil_r.
Qed.

Lemma RunShellLine_trace (config : ShellConfig) (line : string) :
  trace (RunShellLine env config line)
  = ShellRunLine (DbPath config) (WelcomeMessage config) line
    :: trace (front_end config (steps (RunShellLine_script env (DbPath config) line))).
Proof.
  unfold RunShellLine. rewrite !trace_bind. simpl. now rewrite app_nil_r.
Qed.

(** The body of [RunE], once its collaborators have answered. *)
Lemma RunE_body_resolved (args : list string) (nameOrUrl : string)
      (client : turso.Client) (config : Settings)
      (db : option turso.Database) (token : string) :
  createTursoClientFromAccessToken env true = Ok client ->
  ReadSettings env = Ok config ->
  value (databaseFromNameOrURL nameOrUrl client) = Ok db ->
  value (tokenFromDb db client) = Ok token ->
  let dbUrl := match db with
               | Some d => addTokenAsQueryParameter (getDatabaseHttpUrl env config d) token
               | None => nameOrUrl
               end in
  let shellConfig :=
    mkShellConfig dbUrl PerDatabaseHistory "turso"
                  (getConnectionInfo env nameOrUrl db config) spinner_Stop in
  RunE_body env args nameOrUrl
  = (databaseFromNameOrURL nameOrUrl client ;;;
     tokenFromDb db client ;;;
     if Nat.eqb (List.length args) 2 then
       if Nat.eqb (String.length (nth 1 args "")) 0
       then ret (Some (errorString "no SQL command to execute"))
       else RunShellLine env shellConfig (nth 1 args "")
     else RunShell env shellConfig).
Proof.
  intros Hclient Hconfig Hres Htok. unfold RunE_body.
  rewrite Hclient, Hconfig.
  destruct (databaseFromNameOrURL nameOrUrl client) as [r t1].
  unfold value in Hres; simpl in Hres; subst r.
  unfold bind; simpl.
  destruct (tokenFromDb db client) as [r t2].
  unfold value in Htok; simpl in Htok; subst r.
  reflexivity.
Qed.

(** The body of [RunE] when a collaborator fails: it returns the error and
    the front end is not run. *)
Lemma RunE_body_cases (args : list string) (nameOrUrl : string) :
  (exists err, value (RunE_body env args nameOrUrl) = Some err
               /\ (trace (RunE_body env args nameOrUrl) = []
                   \/ trace (RunE_body env args nameOrUrl) = [DatabasesList]
                   \/ exists name,
                       trace (RunE_body env args nameOrUrl)
                       = [DatabasesList; DatabasesToken name "1d" false]))
  \/ (exists client config db token,
         createTursoClientFromAccessToken env true = Ok client
         /\ ReadSettings env = Ok config
         /\ value (databaseFromNameOrURL nameOrUrl client) = Ok db
         /\ value (tokenFromDb db client) = Ok token).
Proof.
  unfold RunE_body.
  destruct (createTursoClientFromAccessToken env true) as [client|e];
    [| left; eexists; split; [reflexivity | auto]].
  destruct (ReadSettings env) as [config|e];
    [| left; eexists; split; [reflexivity | auto]].
  destruct (resolution_trace nameOrUrl client) as [Hok Hany].
  destruct (databaseFromNameOrURL nameOrUrl client) as [[db|e] t1] eqn:Hres;
    unfold value, trace, bind in *; simpl in *.
  - specialize (Hok db eq_refl). subst t1.
    rewrite (tokenFromDb_trace db client).
    destruct db as [d|]; simpl.
    + destruct (turso.token_response client (turso.Name d) "1d" false) as [token|e] eqn:Ht.
      * right. exists client, config, (Some d), token.
        rewrite Hres. repeat split; auto.
      * left. eexists; split; [reflexivity |]. right; right. now eexists.
    + right. exists client, config, None, "".
      rewrite Hres. repeat split; auto.
  - left. eexists; split; [reflexivity |].
    rewrite app_nil_r. destruct Hany; auto.
Qed.

End ShellProperties.

Section SessionProperties.

Context {Settings : Type}.
Variable env : Env Settings.

Lemma session_events (args : list string) (shellConfig : ShellConfig) :
  AfterDbConnectionCallback shellConfig = spinner_Stop ->
  count is_stop (trace (session env args shellConfig))
  = count is_connected (trace (session env args shellConfig))
  /\ count is_start (trace (session env args shellConfig)) = 0
  /\ count is_token_request (trace (session env args shellConfig)) = 0.
Proof.
  intros Hcb. unfold session.
  destruct (Nat.eqb (List.length args) 2);
    [destruct (Nat.eqb (String.length (nth 1 args "")) 0); [repeat split |] |];
    rewrite ?RunShellLine_trace, ?RunShell_trace, !count_cons; simpl;
    now apply front_end_events.
Qed.

Lemma RunE_body_events (args : list string) (nameOrUrl : string) :
  count is_start (trace (RunE_body env args nameOrUrl)) = 0
  /\ count is_stop (trace (RunE_body env args nameOrUrl))
     = count is_connected (trace (RunE_body env args nameOrUrl)).
Proof.
  destruct (RunE_body_cases env args nameOrUrl)
    as [(err & _ & Ht) | (client & config & db & token & Hc & Hs & Hr & Hk)].
  - destruct Ht as [-> | [-> | [name ->]]]; split; reflexivity.
  - rewrite (RunE_body_resolved env args nameOrUrl client config db token Hc Hs Hr Hk).
    rewrite !trace_bind, !count_app.
    rewrite (proj1 (resolution_trace nameOrUrl client) db Hr).
    rewrite (tokenFromDb_trace db client).
    match goal with
    | |- context [trace (if Nat.eqb (List.length args) 2 then _ else RunShell env ?c)] =>
        destruct (session_events args c eq_refl) as (H1 & H2 & H3)
    end.
    unfold session in H1, H2, H3.
    destruct db; simpl; rewrite ?H1, ?H2; split; reflexivity.
Qed.

End SessionProperties.

(** C1 as stated fails: in an interactive invocation in which everything
    succeeds and the front end connects once, [spinner.Stop()] is called twice,
    by the callback and by the deferred call; and in the same invocation in
    single-shot mode the one stop call meets an indicator that was never
    started. *)
Lemma C1_counterexample_interactive_stops_twice :
  value (shellCmd Scenario.env ["my-db"]) = None
  /\ count is_connected (trace (shellCmd Scenario.env ["my-db"])) = 1
  /\ count is_stop (trace (shellCmd Scenario.env ["my-db"])) = 2
  /\ trace (shellCmd Scenario.env ["my-db"; "select 1"])
     = [DatabasesList;
        DatabasesToken "my-db" "1d" false;
        ShellRunLine "https://my-db-org.example.io?jwt=tok.my-db"
                     (getConnectionInfo Scenario.env "my-db" (Some Scenario.my_db) tt)
                     "select 1";
        ShellConnected; SpinnerStop; ShellStatement "select 1"].
Proof.
  repeat split; reflexivity.
Qed.

(** C1, amended: in an invocation with a database reference, the number of
    stop calls is the number of times the front end reports its connection
    (it invokes the callback), whatever the number of statements executed,
    plus, in interactive mode, the deferred stop at return: interactive mode
    starts the indicator once, first thing, and stops it last thing, so a
    started indicator is never left running; single-shot mode never starts
    it. *)
Theorem C1_stop_once_per_connection_plus_deferred
        {Settings : Type} (env : Env Settings) (args : list string)
        (Href : nth 0 args "" <> "") :
  let t := trace (shellCmd env args) in
  (List.length args = 1 ->
   count is_start t = 1
   /\ count is_stop t = S (count is_connected t)
   /\ exists t', t = (SpinnerStart :: t' ++ [SpinnerStop])%list)
  /\ (List.length args = 2 ->
      count is_start t = 0
      /\ count is_stop t = count is_connected t).
Proof.
  destruct args as [|ref [|sql [|more args]]]; simpl; split; intros Hlen;
    try discriminate Hlen; simpl in Href.
  - unfold shellCmd, RunE; simpl.
    apply String.eqb_neq in Href. rewrite Href.
    destruct (RunE_body_events env [ref] ref) as [Hstart Hstop].
    rewrite !trace_bind. simpl trace.
    rewrite !count_app, !count_cons, Hstart, Hstop. simpl.
    change (count is_stop []) with 0. change (count is_connected []) with 0.
    repeat split; try lia.
    now exists (trace (RunE_body env [ref] ref)).
  - unfold shellCmd, RunE; simpl.
    apply String.eqb_neq in Href. rewrite Href.
    apply RunE_body_events.
Qed.

(** The amended C1 at the scenario, in both modes. *)
Lemma C1_witness_both_modes :
  (count is_start (trace (shellCmd Scenario.env ["my-db"])) = 1
   /\ count is_stop (trace (shellCmd Scenario.env ["my-db"]))
      = S (count is_connected (trace (shellCmd Scenario.env ["my-db"]))))
  /\ (count is_start (trace (shellCmd Scenario.env ["my-db"; "select 1"])) = 0
      /\ count is_stop (trace (shellCmd Scenario.env ["my-db"; "select 1"]))
         = count is_connected (trace (shellCmd Scenario.env ["my-db"; "select 1"]))).
Proof.
  split.
  - destruct (C1_stop_once_per_connection_plus_deferred Scenario.env ["my-db"])
      as [H _]; [discriminate |].
    destruct (H eq_refl) as (H1 & H2 & _). split; assumption.
  - destruct (C1_stop_once_per_connection_plus_deferred
                Scenario.env ["my-db"; "select 1"]) as [_ H]; [discriminate |].
    exact (H eq_refl).
Defined.

(** C6: when resolution yields no database (a raw external endpoint), the
    token operation returns the empty token and no error without any call,
    and the whole invocation makes no request to the credential endpoint. *)
Theorem C6_no_token_request_without_database
        {Settings : Type} (env : Env Settings) (args : list string)
        (client : turso.Client)
        (Hclient : createTursoClientFromAccessToken env true = Ok client)
        (Hraw : value (databaseFromNameOrURL (nth 0 args "") client) = Ok None) :
  tokenFromDb None client = (Ok "", [])
  /\ count is_token_request (trace (shellCmd env args)) = 0.
Proof.
  split; [reflexivity |].
  assert (Hbody : count is_token_request (trace (RunE_body env args (nth 0 args ""))) = 0).
  { unfold RunE_body. rewrite Hclient.
    destruct (ReadSettings env) as [config|e]; [| reflexivity].
    rewrite trace_bind, Hraw. cbv beta iota.
    rewrite trace_bind, !count_app.
    rewrite (proj1 (resolution_trace _ client) None Hraw).
    cbn [tokenFromDb ret value trace fst snd].
    match goal with
    | |- context [trace (if Nat.eqb (List.length args) 2 then _ else RunShell env ?c)] =>
        destruct (session_events env args c eq_refl) as (_ & _ & H3)
    end.
    unfold session in H3. simpl. exact H3. }
  unfold shellCmd, RunE.
  destruct (Nat.ltb (List.length args) 1 || Nat.ltb 2 (List.length args));
    [reflexivity |].
  destruct (nth 0 args "" =? ""); [reflexivity |].
  destruct (Nat.eqb (List.length args) 1); [| exact Hbody].
  rewrite !trace_bind, !count_app, Hbody. reflexivity.
Qed.

(** C6 at a URL that matches no known database. *)
Lemma C6_witness_external_url :
  tokenFromDb None Scenario.client = (Ok "", [])
  /\ count is_token_request
       (trace (shellCmd Scenario.env ["libsql://elsewhere.example.org"; "select 1"])) = 0.
Proof.
  apply (C6_no_token_request_without_database
           Scenario.env ["libsql://elsewhere.example.org"; "select 1"] Scenario.client);
    reflexivity.
Defined.

(** C7: when resolution yields a known database and its token is issued, the
    front end is started, after the token request and before anything it does,
    on the endpoint made of the HTTP URL of the database followed by
    [?jwt=] and the token; the token is requested once. *)
Theorem C7_known_database_endpoint_carries_token
        {Settings : Type} (env : Env Settings) (args : list string)
        (client : turso.Client) (config : Settings)
        (db : turso.Database) (token : string)
        (Href : nth 0 args "" <> "")
        (Hmode : List.length args = 1
                 \/ (List.length args = 2 /\ nth 1 args "" <> ""))
        (Hclient : createTursoClientFromAccessToken env true = Ok client)
        (Hconfig : ReadSettings env = Ok config)
        (Hres : value (databaseFromNameOrURL (nth 0 args "") client) = Ok (Some db))
        (Htoken : turso.token_response client (turso.Name db) "1d" false = Ok token) :
  let endpoint := getDatabaseHttpUrl env config db ++ "?jwt=" ++ token in
  exists welcome after,
    trace (shellCmd env args)
    = ((if Nat.eqb (List.length args) 1 then [SpinnerStart] else [])
         ++ [DatabasesList;
             DatabasesToken (turso.Name db) "1d" false;
             if Nat.eqb (List.length args) 1
             then ShellRun endpoint welcome
             else ShellRunLine endpoint welcome (nth 1 args "")]
         ++ after)%list
    /\ count is_token_request after = 0.
Proof.
  intros endpoint.
  assert (Htok : value (tokenFromDb (Some db) client) = Ok token).
  { rewrite tokenFromDb_trace. exact Htoken. }
  pose proof (RunE_body_resolved env args (nth 0 args "") client config (Some db) token
                                 Hclient Hconfig Hres Htok) as Hbody.
  cbv zeta in Hbody.
  set (cfg := mkShellConfig _ _ _ _ _) in Hbody.
  destruct (front_end_events cfg (steps (RunShell_script env (DbPath cfg))) eq_refl)
    as (Hs1 & _ & Ht1).
  destruct (front_end_events
              cfg (steps (RunShellLine_script env (DbPath cfg) (nth 1 args ""))) eq_refl)
    as (Hs2 & _ & Ht2).
  exists (getConnectionInfo env (nth 0 args "") (Some db) config).
  apply String.eqb_neq in Href.
  unfold shellCmd, RunE. rewrite Href.
  destruct Hmode as [Hlen | [Hlen Hsql]]; rewrite Hlen in *; simpl in Hbody; simpl.
  - rewrite !trace_bind, Hbody, !trace_bind.
    rewrite (proj1 (resolution_trace _ client) (Some db) Hres).
    rewrite RunShell_trace. unfold Databases_Token. rewrite !trace_bind. simpl.
    eexists. split; [reflexivity |].
    rewrite count_app. exact (f_equal (fun n => n + 0) Ht1).
  - assert (Hnz : Nat.eqb (String.length (nth 1 args "")) 0 = false).
    { apply Nat.eqb_neq. destruct (nth 1 args ""); [congruence | discriminate]. }
    rewrite Hnz in Hbody. rewrite Hbody, !trace_bind.
    rewrite (proj1 (resolution_trace _ client) (Some db) Hres).
    rewrite RunShellLine_trace. unfold Databases_Token. rewrite !trace_bind. simpl.
    eexists. split; [reflexivity | exact Ht2].
Qed.

(** C7 at the bare name [my-db] of the scenario, in interactive mode. *)
Lemma C7_witness_my_db :
  exists welcome after,
    trace (shellCmd Scenario.env ["my-db"])
    = ([SpinnerStart]
         ++ [DatabasesList;
             DatabasesToken "my-db" "1d" false;
             ShellRun "https://my-db-org.example.io?jwt=tok.my-db" welcome]
         ++ after)%list
    /\ count is_token_request after = 0.
Proof.
  apply (C7_known_database_endpoint_carries_token
           Scenario.env ["my-db"] Scenario.client tt Scenario.my_db "tok.my-db");
    try reflexivity.
  - discriminate.
  - left; reflexivity.
Defined.

(** C9: an invocation whose second argument is the empty string always ends
    in an error and never runs the front end, so no statement is executed;
    when the reference resolves and the token is issued, the error is
    "no SQL command to execute". *)
Theorem C9_empty_sql_argument_is_an_error
        {Settings : Type} (env : Env Settings) (ref : string) :
  (exists err, value (shellCmd env [ref; ""]) = Some err)
  /\ count is_shell_event (trace (shellCmd env [ref; ""])) = 0
  /\ (forall client config db token,
         ref <> "" ->
         createTursoClientFromAccessToken env true = Ok client ->
         ReadSettings env = Ok config ->
         value (databaseFromNameOrURL ref client) = Ok db ->
         value (tokenFromDb db client) = Ok token ->
         value (shellCmd env [ref; ""])
         = Some (errorString "no SQL command to execute")).
Proof.
  unfold shellCmd, RunE. simpl.
  destruct (ref =? "") eqn:Href.
  - split; [now eexists | split; [reflexivity |]].
    intros client config db token Hne. apply String.eqb_eq in Href. contradiction.
  - destruct (RunE_body_cases env [ref; ""] ref)
      as [(err & Hv & Ht) | (client & config & db & token & Hc & Hs & Hr & Hk)].
    + split; [now exists err | split].
      * destruct Ht as [-> | [-> | [name ->]]]; reflexivity.
      * intros client config db token _ Hc Hs Hr Hk.
        rewrite (RunE_body_resolved env _ ref client config db token Hc Hs Hr Hk).
        rewrite !value_bind. reflexivity.
    + pose proof (RunE_body_resolved env [ref; ""] ref client config db token
                                     Hc Hs Hr Hk) as Hbody.
      simpl in Hbody. rewrite Hbody.
      split; [eexists; rewrite !value_bind; reflexivity | split].
      * rewrite !trace_bind, !count_app.
        rewrite (proj1 (resolution_trace ref client) db Hr), tokenFromDb_trace.
        destruct db; reflexivity.
      * intros. rewrite !value_bind. reflexivity.
Qed.

(** C9 at the scenario. *)
Lemma C9_witness_empty_sql :
  value (shellCmd Scenario.env ["my-db"; ""])
  = Some (errorString "no SQL command to execute").
Proof.
  apply (proj2 (proj2 (C9_empty_sql_argument_is_an_error Scenario.env "my-db"))
               Scenario.client tt (Some Scenario.my_db) "tok.my-db");
    try reflexivity.
  discriminate.
Defined.

(** * Further properties: [db_create.go] *)

(** Runs the command on its collaborators' answers, one case at a time. *)
Ltac split_on_answers :=
  repeat match goal with
         | |- context [match ?x with _ => _ end] =>
             lazymatch x with
             | context [match _ with _ => _ end] => fail
             | _ => destruct x eqn:?
             end
         end.

Section CreateProperties.

Context {Settings Rng File : Type}.
Variable env : db_create.Env Settings Rng File.

(** X1: [getDbFile] returns a file exactly when the flag names one that opens,
    whose size can be read and is at most 128 MiB (134217728 bytes, the bound
    included), and that [isSQLiteFile] accepts. *)
Theorem getDbFile_returns_file_iff_valid (path : string) (f : File) :
  db_create.result_of (db_create.getDbFile env path) = Ok (Some f)
  <-> db_create.fromFileFlag env <> ""
      /\ db_create.os_Open env (db_create.fromFileFlag env) = Ok f
      /\ exists size, db_create.Stat_Size env f = Ok size
                      /\ (size <= 134217728)%Z
                      /\ db_create.isSQLiteFile env f = Ok true.
Proof.
  unfold db_create.getDbFile, db_create.andThen, db_create.effect, db_create.pure,
    db_create.result_of.
  destruct (db_create.fromFileFlag env =? "") eqn:Hflag; cbn [fst].
  - apply String.eqb_eq in Hflag. split; [discriminate | tauto].
  - apply String.eqb_neq in Hflag.
    destruct (db_create.os_Open env (db_create.fromFileFlag env)) as [f0|e] eqn:Hopen;
      cbn [fst].
    + destruct (db_create.Stat_Size env f0) as [size|e] eqn:Hstat; cbn [fst].
      * destruct (Z.gtb size db_create.maxFileSize) eqn:Hsize; cbn [fst].
        -- split; [discriminate |].
           intros (_ & [= ->] & size' & Hs & Hle & _).
           rewrite Hstat in Hs. injection Hs as <-.
           apply Z.gtb_lt in Hsize. change db_create.maxFileSize with 134217728%Z in Hsize.
           lia.
        -- destruct (db_create.isSQLiteFile env f0) as [[|]|e] eqn:Hsql; cbn [fst negb].
           ++ split.
              ** intros [= ->]. repeat split; auto. exists size. repeat split; auto.
                 change db_create.maxFileSize with 134217728%Z in Hsize.
                 destruct (Z.gtb_spec size 134217728); [discriminate | lia].
              ** intros (_ & [= ->] & _). reflexivity.
           ++ split; [discriminate |].
              intros (_ & [= ->] & _ & _ & _ & Hv). congruence.
           ++ split; [discriminate |].
              intros (_ & [= ->] & _ & _ & _ & Hv). congruence.
      * split; [discriminate |].
        intros (_ & [= ->] & size & Hs & _). congruence.
    + split; [discriminate |]. intros (_ & Ho & _). congruence.
Qed.


(** X2: the only effect of [getDbFile] is one call of [os.Open] on the path in
    the flag, whatever path it is given, and no call when the flag is empty;
    it returns no file and no error exactly when the flag is empty. *)
Theorem getDbFile_opens_the_flag_only (path : string) :
  db_create.effects (db_create.getDbFile env path)
  = (if db_create.fromFileFlag env =? "" then []
     else [db_create.Open (db_create.fromFileFlag env)])
  /\ (db_create.result_of (db_create.getDbFile env path) = Ok None
      <-> db_create.fromFileFlag env = "").
Proof.
  unfold db_create.getDbFile, db_create.andThen, db_create.effect, db_create.pure,
    db_create.result_of, db_create.effects.
  destruct (db_create.fromFileFlag env =? "") eqn:Hflag.
  - apply String.eqb_eq in Hflag. cbn. tauto.
  - apply String.eqb_neq in Hflag. split_on_answers; cbn; (split; [reflexivity |]);
      split; congruence.
Qed.

(** X3: with a location flag that the service does not know, [db create] fails
    with the message naming the location before it has done anything: no file
    is opened and nothing is created. *)
Theorem createCmd_rejects_unknown_location
        (args : list string) (config : Settings) (name : string)
        (client : db_create.Client File)
        (Hargs : List.length args <= 1)
        (Hconfig : db_create.ReadSettings env = Ok config)
        (Hname : db_create.chosen_name env args = Ok name)
        (Hclient : db_create.createTursoClient env = Ok client)
        (Hflag : db_create.locationFlag env <> "")
        (Hregion : db_create.isValidRegion env client (db_create.locationFlag env) = false) :
  db_create.createCmd env args
  = (Some (errorString ("location '" ++ db_create.locationFlag env
                        ++ "' is not a valid one")), []).
Proof.
  unfold db_create.createCmd, db_create.RunE.
  apply Nat.leb_le in Hargs.
  replace (Nat.ltb 1 (List.length args)) with false
    by (symmetry; apply Nat.ltb_ge; now apply Nat.leb_le).
  rewrite Hconfig. unfold db_create.chosen_name in Hname. rewrite Hname, Hclient, Hregion.
  apply String.eqb_neq in Hflag. rewrite Hflag. reflexivity.
Qed.

End CreateProperties.

(** ** Every run of [db create] is one of the ways above *)

Lemma effects_andThen {File A B : Type} (c : db_create.Cmd File A)
      (k : A -> db_create.Cmd File B) :
  db_create.effects (db_create.andThen c k)
  = (db_create.effects c ++ db_create.effects (k (db_create.result_of c)))%list.
Proof.
  destruct c as [a t1]. unfold db_create.andThen, db_create.effects, db_create.result_of.
  simpl. destruct (k a); reflexivity.
Qed.

Lemma result_andThen {File A B : Type} (c : db_create.Cmd File A)
      (k : A -> db_create.Cmd File B) :
  db_create.result_of (db_create.andThen c k)
  = db_create.result_of (k (db_create.result_of c)).
Proof.
  destruct c as [a t1]. unfold db_create.andThen, db_create.result_of.
  simpl. destruct (k a); reflexivity.
Qed.

Lemma createCmd_follows_a_path
      {Settings Rng File : Type} (env : db_create.Env Settings Rng File)
      (args : list string) :
  create_path env args (db_create.result_of (db_create.createCmd env args))
              (db_create.effects (db_create.createCmd env args)).
Proof.
  unfold db_create.createCmd.
  destruct (Nat.ltb 1 (List.length args)) eqn:Hargs.
  { apply Nat.ltb_lt in Hargs. now apply path_too_many_args. }
  apply Nat.ltb_ge in Hargs.
  unfold db_create.RunE.
  destruct (db_create.ReadSettings env) as [config|err] eqn:Hconfig;
    [| now apply path_no_settings].
  change (if Nat.eqb (List.length args) 0 || (nth 0 args "" =? "")
          then match db_create.DefaultRNG env with
               | Ok rng => Ok (db_create.Generate env rng 0%Z)
               | Err err => Err err
               end
          else Ok (nth 0 args ""))
    with (db_create.chosen_name env args).
  destruct (db_create.chosen_name env args) as [name|err] eqn:Hname;
    [| now apply (path_no_name env args config)].
  destruct (db_create.createTursoClient env) as [client|err] eqn:Hclient;
    [| now apply (path_no_client env args config name)].
  destruct (negb (db_create.locationFlag env =? "")
            && negb (db_create.isValidRegion env client (db_create.locationFlag env)))
           eqn:Hregion.
  { apply andb_true_iff in Hregion as [Hflag Hvalid].
    apply negb_true_iff in Hflag, Hvalid. apply String.eqb_neq in Hflag.
    now apply (path_unknown_location env args config name client). }
  assert (Hready : ready env args config name client).
  { repeat split; auto.
    apply andb_false_iff in Hregion as [Hflag | Hvalid].
    - left. apply negb_false_iff in Hflag. now apply String.eqb_eq.
    - right. now apply negb_false_iff. }
  clear Hregion.
  change (if db_create.locationFlag env =? ""
          then db_create.probeClosestRegion env
          else db_create.locationFlag env)
    with (requested_region env).
  change (if db_create.canary env then "canary" else "latest")
    with (requested_image env).
  destruct (db_create.getDbFile env (db_create.fromFileFlag env))
    as [[dbFile|err] opened] eqn:Hfile;
    rewrite effects_andThen, result_andThen;
    cbn [db_create.result_of db_create.effects fst snd].
  2: { cbn. rewrite app_nil_r. exact (path_bad_file env args config name client err opened
                                                    Hready Hfile). }
  unfold db_create.create_database.
  destruct (db_create.create_response client name (requested_region env)
                                      (requested_image env)) as [res|err] eqn:Hcreate.
  2: { exact (path_not_created env args config name client dbFile opened err
                               Hready Hfile Hcreate). }
  unfold db_create.create_instance.
  destruct dbFile as [f|].
  - destruct (db_create.seed_response client name f) as [err|] eqn:Hseed.
    + exact (path_not_seeded env args config name client f opened res err
                             Hready Hfile Hcreate Hseed).
    + destruct (db_create.instance_response
                  client name "" (db_create.Password res)
                  (requested_region env) (requested_image env)) as [err|] eqn:Hinst.
      * exact (path_no_instance env args config name client (Some f) opened res err
                                Hready Hfile Hcreate Hseed Hinst).
      * pose proof (path_created env args config name client (Some f) opened res
                                 Hready Hfile Hcreate Hseed Hinst) as Hpath.
        unfold report in Hpath.
        destruct (db_create.first_use env); exact Hpath.
  - destruct (db_create.instance_response
                client name "" (db_create.Password res)
                (requested_region env) (requested_image env)) as [err|] eqn:Hinst.
    + exact (path_no_instance env args config name client None opened res err
                              Hready Hfile Hcreate I Hinst).
    + pose proof (path_created env args config name client None opened res
                               Hready Hfile Hcreate I Hinst) as Hpath.
      unfold report in Hpath.
      destruct (db_create.first_use env); exact Hpath.
Qed.

Lemma getDbFile_opened
      {Settings Rng File : Type} (env : db_create.Env Settings Rng File)
      (path : string) (r : result (option File)) (opened : list (db_create.Effect File)) :
  db_create.getDbFile env path = (r, opened) ->
  (opened = [] /\ db_create.fromFileFlag env = "" /\ r = Ok None)
  \/ (opened = [db_create.Open (db_create.fromFileFlag env)]
      /\ db_create.fromFileFlag env <> "" /\ r <> Ok None).
Proof.
  intros H.
  destruct (getDbFile_opens_the_flag_only env path) as [He Hr].
  rewrite H in He, Hr. unfold db_create.effects, db_create.result_of in He, Hr.
  cbn in He, Hr.
  destruct (db_create.fromFileFlag env =? "") eqn:Hflag.
  - left. apply String.eqb_eq in Hflag. repeat split; auto. now apply Hr.
  - right. apply String.eqb_neq in Hflag. repeat split; auto.
    intros Hn. apply Hflag. now apply Hr.
Qed.

(** Looks at a run of [createCmd] way by way, with the file effects spelled
    out. *)
Ltac by_path env args :=
  generalize (createCmd_follows_a_path env args);
  generalize (db_create.result_of (db_create.createCmd env args))
             (db_create.effects (db_create.createCmd env args));
  let r := fresh "r" in
  let t := fresh "t" in
  let Hpath := fresh "Hpath" in
  intros r t Hpath; destruct Hpath;
  try match goal with
      | H : db_create.getDbFile _ _ = (_, ?o) |- _ =>
          let Ho := fresh "Ho" in
          destruct (getDbFile_opened _ _ _ _ H) as [(-> & Ho & ?) | (-> & Ho & ?)]
      end.

Ltac in_cases H :=
  unfold seed_effects, close_effects, report in H;
  repeat match type of H with
         | context [if ?b then _ else _] => destruct b
         end;
  repeat rewrite in_app_iff in H; simpl in H;
  repeat match goal with
         | H' : _ \/ _ |- _ => destruct H' as [H' | H']
         end;
  try contradiction; try discriminate.

Section CreateRuns.

Context {Settings Rng File : Type}.
Variable env : db_create.Env Settings Rng File.

(** X4: whenever [db create] asks the service to create a database, the name
    is the argument (or the generated code name when there is none), the
    region is the flag (or the closest region when the flag is empty), the
    image is [canary] or [latest] by the flag, the location was accepted and
    the seed file, if any, was validated. *)
Theorem createCmd_creates_only_after_local_checks
        (args : list string) (n r i : string)
        (Hcall : In (db_create.DatabasesCreate n r i)
                    (db_create.effects (db_create.createCmd env args))) :
  db_create.chosen_name env args = Ok n
  /\ r = requested_region env
  /\ i = requested_image env
  /\ (exists client,
         db_create.createTursoClient env = Ok client
         /\ (db_create.locationFlag env = ""
             \/ db_create.isValidRegion env client (db_create.locationFlag env) = true))
  /\ (exists dbFile,
         db_create.result_of (db_create.getDbFile env (db_create.fromFileFlag env))
         = Ok dbFile).
Proof.
  revert Hcall. by_path env args; intros Hcall;
    try destruct dbFile;
    in_cases Hcall;
    match goal with
    | H : db_create.DatabasesCreate _ _ _ = db_create.DatabasesCreate _ _ _ |- _ =>
        injection H as <- <- <-
    end;
    match goal with
    | H : ready _ _ _ _ _ |- _ => destruct H as (_ & _ & Hn & Hc & Hl)
    end;
    match goal with
    | H : db_create.getDbFile _ _ = _ |- _ => rewrite H
    end;
    (split; [exact Hn | split; [reflexivity | split; [reflexivity |
       split; [eexists; split; [exact Hc | exact Hl] | eexists; reflexivity]]]]).
Qed.


(** X5: [db create] deletes a database only after the service rejected its
    seed; the command then returns that rejection, wrapped with the name of
    the database. *)
Theorem createCmd_deletes_only_after_failed_seed
        (args : list string) (n : string)
        (Hdel : In (db_create.DatabasesDelete n)
                   (db_create.effects (db_create.createCmd env args))) :
  exists client f err,
    db_create.createTursoClient env = Ok client
    /\ db_create.chosen_name env args = Ok n
    /\ db_create.seed_response client n f = Some err
    /\ db_create.result_of (db_create.createCmd env args)
       = Some (wrapError ("could not create database " ++ n) err).
Proof.
  revert Hdel. by_path env args; intros Hdel; try destruct dbFile; in_cases Hdel.
  injection Hdel as <-.
  match goal with
  | H : ready _ _ _ _ _ |- _ => destruct H as (_ & _ & Hn & Hc & _)
  end.
  exists client, f, err. auto.
Qed.

(** X6: when the service rejects the seed, [db create] returns the rejection
    wrapped with the name of the database, and all it has done is: open the
    file, show the spinner, create the database, send the seed, delete the
    database, close the file, stop the spinner.  No instance is created,
    nothing is printed or stored. *)
Theorem createCmd_failed_seed_is_rolled_back
        (args : list string) (n : string) (f : File)
        (client : db_create.Client File) (err : error)
        (Hseed : In (db_create.DatabasesSeed n f)
                    (db_create.effects (db_create.createCmd env args)))
        (Hclient : db_create.createTursoClient env = Ok client)
        (Hfail : db_create.seed_response client n f = Some err) :
  db_create.result_of (db_create.createCmd env args)
  = Some (wrapError ("could not create database " ++ n) err)
  /\ db_create.effects (db_create.createCmd env args)
     = [db_create.Open (db_create.fromFileFlag env);
        db_create.SpinnerNew (spinner_text env client n);
        db_create.DatabasesCreate n (requested_region env) (requested_image env);
        db_create.DatabasesSeed n f;
        db_create.DatabasesDelete n;
        db_create.Close f;
        db_create.BarStop].
Proof.
  revert Hseed. by_path env args; intros Hseed; try destruct dbFile; in_cases Hseed;
    injection Hseed as <- <-;
    match goal with
    | H : ready _ _ _ _ _ |- _ => destruct H as (_ & _ & _ & Hc & _)
    end;
    assert (client0 = client) by congruence; subst client0;
    try (unfold seeded in *; congruence).
  replace err0 with err by congruence.
  split; reflexivity.
Qed.

(** X7: when the creation of the instance fails, [db create] returns the error
    as it is and neither deletes the database it has just created nor stores
    settings for it. *)
Theorem createCmd_failed_instance_is_not_rolled_back
        (args : list string) (n inst pw rg im : string)
        (client : db_create.Client File) (err : error)
        (Hinst : In (db_create.InstancesCreate n inst pw rg im)
                    (db_create.effects (db_create.createCmd env args)))
        (Hclient : db_create.createTursoClient env = Ok client)
        (Hfail : db_create.instance_response client n inst pw rg im = Some err) :
  db_create.result_of (db_create.createCmd env args) = Some err
  /\ (forall m, ~ In (db_create.DatabasesDelete m)
                     (db_create.effects (db_create.createCmd env args)))
  /\ (forall id s, ~ In (db_create.AddDatabase id s)
                        (db_create.effects (db_create.createCmd env args))).
Proof.
  revert Hinst. by_path env args; intros Hinst; try destruct dbFile; in_cases Hinst;
    injection Hinst as <- <- <- <- <-;
    match goal with
    | H : ready _ _ _ _ _ |- _ => destruct H as (_ & _ & _ & Hc & _)
    end;
    assert (client0 = client) by congruence; subst client0;
    try congruence.
  all: split; [congruence |];
    split; [intros m Hm | intros id s Hm]; in_cases Hm.
Qed.

(** X8: [db create] stores settings exactly when it succeeds, and what it
    stores is what the service returned: under the identifier of the database,
    its name, user name and password. *)
Theorem createCmd_stores_settings_iff_success (args : list string) :
  (db_create.result_of (db_create.createCmd env args) = None
   <-> exists id s, In (db_create.AddDatabase id s)
                       (db_create.effects (db_create.createCmd env args)))
  /\ (forall id s,
         In (db_create.AddDatabase id s)
            (db_create.effects (db_create.createCmd env args)) ->
         exists client n res,
           db_create.createTursoClient env = Ok client
           /\ db_create.chosen_name env args = Ok n
           /\ db_create.create_response client n (requested_region env)
                                        (requested_image env) = Ok res
           /\ id = turso.ID (db_create.Database res)
           /\ s = settings.mkDatabaseSettings
                    (turso.Name (db_create.Database res))
                    (db_create.Username res) (db_create.Password res)).
Proof.
  by_path env args; try destruct dbFile.
  all: split;
    [split;
     [intros Hr; try discriminate Hr;
      exists (turso.ID (db_create.Database res)),
        (settings.mkDatabaseSettings (turso.Name (db_create.Database res))
                                     (db_create.Username res) (db_create.Password res));
      unfold report; repeat rewrite in_app_iff; simpl; auto 20
     | intros (id & s & Hin); in_cases Hin; reflexivity]
    | intros id s Hin; in_cases Hin;
      injection Hin as <- <-;
      match goal with
      | H : ready _ _ _ _ _ |- _ => destruct H as (_ & _ & Hn & Hc & _)
      end;
      exists client, name, res; repeat split; assumption].
Qed.

(** X9: [db create] shows at most one spinner and stops it once per spinner
    shown, by the deferred call, plus once more when it succeeds. *)
Theorem createCmd_stops_the_spinner (args : list string) :
  how_many is_spinner_new (db_create.effects (db_create.createCmd env args)) <= 1
  /\ how_many is_bar_stop (db_create.effects (db_create.createCmd env args))
     = how_many is_spinner_new (db_create.effects (db_create.createCmd env args))
       + match db_create.result_of (db_create.createCmd env args) with
         | None => 1
         | Some _ => 0
         end.
Proof.
  by_path env args; try destruct dbFile; unfold report;
    try destruct (db_create.first_use env); cbn; lia.
Qed.

(** X10: [db create] prints nothing when it fails; when it succeeds it prints
    five times, and a sixth time, the hint about replicas, exactly on first
    use. *)
Theorem createCmd_prints_only_on_success (args : list string) :
  how_many is_printf (db_create.effects (db_create.createCmd env args))
  = match db_create.result_of (db_create.createCmd env args) with
    | None => 5 + (if db_create.first_use env then 1 else 0)
    | Some _ => 0
    end.
Proof.
  by_path env args; try destruct dbFile; unfold report;
    try destruct (db_create.first_use env); reflexivity.
Qed.

(** X11: [db create] closes a file exactly when it has sent it to the service
    as a seed, and closes at most once. *)
Theorem createCmd_closes_the_file_iff_seeding (args : list string) :
  (forall f, In (db_create.Close f) (db_create.effects (db_create.createCmd env args))
             <-> exists n, In (db_create.DatabasesSeed n f)
                              (db_create.effects (db_create.createCmd env args)))
  /\ how_many is_close (db_create.effects (db_create.createCmd env args)) <= 1.
Proof.
  by_path env args; try destruct dbFile.
  all: split;
    [intros g; split;
     [intros Hin; in_cases Hin; injection Hin as <-;
      eexists; unfold seed_effects; repeat rewrite in_app_iff; simpl; auto 20
     | intros (m & Hin); in_cases Hin; injection Hin as _ <-;
       unfold close_effects; repeat rewrite in_app_iff; simpl; auto 20]
    | unfold report; try destruct (db_create.first_use env); cbn; lia].
Qed.

(** X12: when the service refuses to create the database, a seed file that
    [getDbFile] had opened and accepted is never closed. *)
Theorem createCmd_leaves_the_file_open_when_not_created
        (args : list string) (f : File) (n rg im : string)
        (client : db_create.Client File) (err : error)
        (Hfile : db_create.result_of
                   (db_create.getDbFile env (db_create.fromFileFlag env)) = Ok (Some f))
        (Hcall : In (db_create.DatabasesCreate n rg im)
                    (db_create.effects (db_create.createCmd env args)))
        (Hclient : db_create.createTursoClient env = Ok client)
        (Hfail : db_create.create_response client n rg im = Err err) :
  In (db_create.Open (db_create.fromFileFlag env))
     (db_create.effects (db_create.createCmd env args))
  /\ forall g, ~ In (db_create.Close g)
                    (db_create.effects (db_create.createCmd env args)).
Proof.
  revert Hcall. by_path env args; intros Hcall; try destruct dbFile; in_cases Hcall;
    injection Hcall as <- <- <-;
    match goal with
    | H : ready _ _ _ _ _ |- _ => destruct H as (_ & _ & _ & Hc & _)
    end;
    assert (client0 = client) by congruence; subst client0;
    match goal with
    | H : db_create.getDbFile _ _ = _ |- _ =>
        rewrite H in Hfile; unfold db_create.result_of in Hfile; cbn in Hfile
    end;
    try congruence.
  all: split; [simpl; auto | intros g Hg; in_cases Hg].
Qed.

(** X13: whenever [db create] asks for an instance, it is for the chosen name,
    with an empty instance name, in the region and with the image of the
    database, and with the password the service returned when it created that
    database. *)
Theorem createCmd_instance_gets_the_returned_password
        (args : list string) (n inst pw rg im : string)
        (Hinst : In (db_create.InstancesCreate n inst pw rg im)
                    (db_create.effects (db_create.createCmd env args))) :
  inst = ""
  /\ rg = requested_region env
  /\ im = requested_image env
  /\ db_create.chosen_name env args = Ok n
  /\ exists client res,
      db_create.createTursoClient env = Ok client
      /\ db_create.create_response client n rg im = Ok res
      /\ pw = db_create.Password res.
Proof.
  revert Hinst. by_path env args; intros Hinst; try destruct dbFile; in_cases Hinst;
    injection Hinst as <- <- <- <- <-;
    match goal with
    | H : ready _ _ _ _ _ |- _ => destruct H as (_ & _ & Hn & Hc & _)
    end;
    repeat split; auto; do 2 eexists; repeat split; eauto.
Qed.

End CreateRuns.

(** * Further properties: [db_shell.go] *)

Lemma str_app_assoc (a b c : string) : (a ++ b) ++ c = a ++ (b ++ c).
Proof.
  induction a as [|x a IH]; simpl; [reflexivity | now rewrite IH].
Qed.

Section ShellRuns.

Context {Settings : Type}.
Variable env : Env Settings.

Lemma front_end_only (config : ShellConfig) (todo : list ShellStep) :
  AfterDbConnectionCallback config = spinner_Stop ->
  Forall front_end_event (trace (front_end config todo)).
Proof.
  intros Hcb. induction todo as [|step todo IH]; [constructor |].
  destruct step; cbn [front_end]; rewrite ?Hcb, !trace_bind; cbn [trace emit spinner_Stop snd app].
  - constructor; [now left |]. constructor; [right; now left | exact IH].
  - constructor; [right; right; now eexists | exact IH].
Qed.

(** [shellCmd] on accepted arguments: the body of [RunE], inside the spinner
    in interactive mode. *)
Lemma shellCmd_accepted (args : list string) :
  nth 0 args "" <> "" ->
  List.length args = 1 \/ List.length args = 2 ->
  shellCmd env args
  = (value (RunE_body env args (nth 0 args "")),
     with_spinner args (trace (RunE_body env args (nth 0 args "")))).
Proof.
  intros Href Hlen. apply String.eqb_neq in Href.
  unfold shellCmd, RunE, with_spinner. rewrite Href.
  destruct (RunE_body env args (nth 0 args "")) as [r t].
  destruct Hlen as [-> | ->]; cbn; [| reflexivity].
  unfold bind; cbn. reflexivity.
Qed.

(** X14: with a wrong number of arguments or an empty database name, [db
    shell] returns an error and has done nothing: no spinner, no call to a
    service. *)
Theorem shellCmd_argument_errors_have_no_effect (args : list string)
        (Hbad : List.length args < 1 \/ 2 < List.length args \/ nth 0 args "" = "") :
  exists err, shellCmd env args = (Some err, []).
Proof.
  unfold shellCmd, RunE.
  destruct (Nat.ltb (List.length args) 1 || Nat.ltb 2 (List.length args)) eqn:Hcount;
    [now eexists |].
  apply orb_false_iff in Hcount as [H1 H2].
  apply Nat.ltb_ge in H1, H2.
  destruct Hbad as [Hbad | [Hbad | Hbad]]; try lia.
  rewrite Hbad. cbn. now eexists.
Qed.

(** X15: when the client cannot be created or the settings cannot be read, [db
    shell] returns that error wrapped in a message, and has called no service;
    in interactive mode the spinner was started and stopped. *)
Theorem shellCmd_setup_failure_reaches_no_service
        (args : list string) (err : error)
        (Href : nth 0 args "" <> "")
        (Hlen : List.length args = 1 \/ List.length args = 2)
        (Hfail : createTursoClientFromAccessToken env true = Err err
                 \/ (exists client, createTursoClientFromAccessToken env true = Ok client)
                    /\ ReadSettings env = Err err) :
  (exists msg, value (shellCmd env args) = Some (wrapError msg err))
  /\ trace (shellCmd env args) = with_spinner args [].
Proof.
  rewrite (shellCmd_accepted args Href Hlen). unfold RunE_body, value, trace. cbn [fst snd].
  destruct Hfail as [Hc | [[client Hc] Hs]]; rewrite Hc; [| rewrite Hs];
    cbn; (split; [now eexists | reflexivity]).
Qed.

(** X16: for a URL reference, an error of the directory listing is returned by
    [db shell] as it is, after that one call; no token is requested and the
    front end is not started. *)
Theorem shellCmd_url_listing_failure_is_returned
        (args : list string) (client : turso.Client) (config : Settings) (err : error)
        (Hlen : List.length args = 1 \/ List.length args = 2)
        (Hurl : isURL (nth 0 args "") = true)
        (Hclient : createTursoClientFromAccessToken env true = Ok client)
        (Hconfig : ReadSettings env = Ok config)
        (Hlist : turso.list_response client = Err err) :
  shellCmd env args = (Some err, with_spinner args [DatabasesList]).
Proof.
  assert (Href : nth 0 args "" <> "").
  { intros He. rewrite He in Hurl. discriminate Hurl. }
  rewrite (shellCmd_accepted args Href Hlen).
  unfold RunE_body. rewrite Hclient, Hconfig.
  rewrite value_bind, trace_bind.
  rewrite (databaseFromNameOrURL_url _ client Hurl).
  unfold databaseFromURL. unfold isURL in Hurl.
  destruct (url.ParseRequestURI (nth 0 args "")) as [parsed|e]; [| discriminate].
  unfold Databases_List. rewrite value_bind, trace_bind. cbn. rewrite Hlist. reflexivity.
Qed.

(** X17: when the token of a resolved database cannot be issued, [db shell]
    returns that error after the listing and the one token request, and the
    front end is not started. *)
Theorem shellCmd_token_failure_stops_before_the_front_end
        (args : list string) (client : turso.Client) (config : Settings)
        (db : turso.Database) (err : error)
        (Href : nth 0 args "" <> "")
        (Hlen : List.length args = 1 \/ List.length args = 2)
        (Hclient : createTursoClientFromAccessToken env true = Ok client)
        (Hconfig : ReadSettings env = Ok config)
        (Hres : value (databaseFromNameOrURL (nth 0 args "") client) = Ok (Some db))
        (Htoken : turso.token_response client (turso.Name db) "1d" false = Err err) :
  shellCmd env args
  = (Some err,
     with_spinner args [DatabasesList; DatabasesToken (turso.Name db) "1d" false]).
Proof.
  rewrite (shellCmd_accepted args Href Hlen).
  unfold RunE_body. rewrite Hclient, Hconfig.
  rewrite value_bind, trace_bind, Hres. cbv beta iota.
  rewrite (proj1 (resolution_trace _ client) (Some db) Hres).
  rewrite tokenFromDb_trace. unfold bind. cbn. rewrite Htoken. reflexivity.
Qed.

(** X18: when resolution yields no database, the front end is started on the
    reference exactly as typed, with the message [Connected to] followed by
    the reference and the help text, after the listing and nothing else. *)
Theorem shellCmd_raw_endpoint_is_passed_unchanged
        (args : list string) (client : turso.Client) (config : Settings)
        (Href : nth 0 args "" <> "")
        (Hlen : List.length args = 1 \/ (List.length args = 2 /\ nth 1 args "" <> ""))
        (Hclient : createTursoClientFromAccessToken env true = Ok client)
        (Hconfig : ReadSettings env = Ok config)
        (Hraw : value (databaseFromNameOrURL (nth 0 args "") client) = Ok None) :
  let ref := nth 0 args "" in
  let welcome := "Connected to " ++ ref ++ welcome_help in
  exists after,
    trace (shellCmd env args)
    = with_spinner args
        (DatabasesList
           :: (if Nat.eqb (List.length args) 1
               then ShellRun ref welcome
               else ShellRunLine ref welcome (nth 1 args ""))
           :: after)
    /\ Forall front_end_event after.
Proof.
  cbv zeta.
  assert (Hlen' : List.length args = 1 \/ List.length args = 2) by tauto.
  rewrite (shellCmd_accepted args Href Hlen'). unfold trace at 1. cbn [snd].
  rewrite (RunE_body_resolved env args (nth 0 args "") client config None ""
                              Hclient Hconfig Hraw eq_refl).
  rewrite !trace_bind.
  rewrite (proj1 (resolution_trace _ client) None Hraw).
  assert (Hw : getConnectionInfo env (nth 0 args "") None config
               = "Connected to " ++ nth 0 args "" ++ welcome_help).
  { unfold getConnectionInfo, welcome_help.
    rewrite !str_app_assoc. reflexivity. }
  destruct Hlen as [Hl | [Hl Hsql]]; rewrite Hl; cbn [Nat.eqb].
  - rewrite RunShell_trace. cbn [DbPath WelcomeMessage]. rewrite Hw.
    eexists. split; [reflexivity |]. now apply front_end_only.
  - assert (Hnz : Nat.eqb (String.length (nth 1 args "")) 0 = false).
    { apply Nat.eqb_neq. destruct (nth 1 args ""); [congruence | discriminate]. }
    rewrite Hnz, RunShellLine_trace. cbn [DbPath WelcomeMessage]. rewrite Hw.
    eexists. split; [reflexivity |]. now apply front_end_only.
Qed.

End ShellRuns.

Section ShellShape.

Context {Settings : Type}.
Variable env : Env Settings.

(** A run of the body of [RunE]: preparation, at most one start of the front
    end, then the front end. *)
Lemma RunE_body_shape (args : list string) (nameOrUrl : string) :
  exists pre starts after,
    trace (RunE_body env args nameOrUrl) = (pre ++ starts ++ after)%list
    /\ Forall preparation_event pre
    /\ count is_list pre <= 1
    /\ count is_token_request pre <= 1
    /\ count is_start pre = 0
    /\ front_end_start env args (value (RunE_body env args nameOrUrl)) starts
    /\ Forall front_end_event after.
Proof.
  destruct (RunE_body_cases env args nameOrUrl)
    as [(err & _ & Ht) | (client & config & db & token & Hc & Hs & Hr & Hk)].
  - exists (trace (RunE_body env args nameOrUrl)), [], [].
    rewrite app_nil_r.
    split; [reflexivity |].
    assert (Hno : front_end_start env args (value (RunE_body env args nameOrUrl)) [])
      by now left.
    destruct Ht as [-> | [-> | [name ->]]]; unfold count; cbn;
      (split; [| split; [lia | split; [lia | split; [reflexivity |
         split; [exact Hno | constructor]]]]]);
      repeat (apply Forall_cons || apply Forall_nil); unfold preparation_event; eauto 6.
  - rewrite (RunE_body_resolved env args nameOrUrl client config db token Hc Hs Hr Hk).
    rewrite !trace_bind, !value_bind.
    rewrite (proj1 (resolution_trace _ client) db Hr).
    set (cfg := mkShellConfig _ _ _ _ _).
    assert (Hpre : Forall preparation_event
                          ([DatabasesList] ++ trace (tokenFromDb db client))
                   /\ count is_list ([DatabasesList] ++ trace (tokenFromDb db client)) <= 1
                   /\ count is_token_request
                        ([DatabasesList] ++ trace (tokenFromDb db client)) <= 1
                   /\ count is_start
                        ([DatabasesList] ++ trace (tokenFromDb db client)) = 0).
    { rewrite tokenFromDb_trace. destruct db; unfold count; cbn;
        repeat split; try lia;
        repeat (apply Forall_cons || apply Forall_nil); unfold preparation_event; eauto 6. }
    destruct Hpre as (Hp1 & Hp2 & Hp3 & Hp4).
    exists ([DatabasesList] ++ trace (tokenFromDb db client))%list.
    destruct (Nat.eqb (List.length args) 2) eqn:Hlen;
      [destruct (Nat.eqb (String.length (nth 1 args "")) 0) eqn:Hsql |].
    + exists [], []. rewrite app_assoc.
      repeat split; auto. now left.
    + apply Nat.eqb_eq in Hlen. apply Nat.eqb_neq in Hsql.
      rewrite RunShellLine_trace.
      exists [ShellRunLine (DbPath cfg) (WelcomeMessage cfg) (nth 1 args "")],
        (trace (front_end cfg (steps (RunShellLine_script env (DbPath cfg)
                                                             (nth 1 args ""))))).
      rewrite <- app_assoc.
      repeat split; auto; [| now apply front_end_only].
      right; right. exists (DbPath cfg), (WelcomeMessage cfg).
      repeat split; auto.
      * intros He. rewrite He in Hsql. now apply Hsql.
      * unfold RunShellLine. now rewrite !value_bind.
    + rewrite RunShell_trace.
      exists [ShellRun (DbPath cfg) (WelcomeMessage cfg)],
        (trace (front_end cfg (steps (RunShell_script env (DbPath cfg))))).
      rewrite <- app_assoc.
      repeat split; auto; [| now apply front_end_only].
      right; left. exists (DbPath cfg), (WelcomeMessage cfg).
      repeat split; auto.
      * now apply Nat.eqb_neq.
      * unfold RunShell. now rewrite !value_bind.
Qed.


Lemma count_front_end_events (p : Event -> bool) (t : list Event) :
  Forall front_end_event t ->
  p ShellConnected = false -> p SpinnerStop = false ->
  (forall sql, p (ShellStatement sql) = false) ->
  count p t = 0.
Proof.
  intros Hall H1 H2 H3. unfold count.
  induction Hall as [|ev t Hev _ IH]; [reflexivity |].
  simpl. destruct Hev as [-> | [-> | [sql ->]]]; rewrite ?H1, ?H2, ?H3; exact IH.
Qed.

Lemma count_preparation_events (p : Event -> bool) (t : list Event) :
  Forall preparation_event t ->
  p SpinnerStart = false -> p DatabasesList = false ->
  (forall name, p (DatabasesToken name "1d" false) = false) ->
  count p t = 0.
Proof.
  intros Hall H1 H2 H3. unfold count.
  induction Hall as [|ev t Hev _ IH]; [reflexivity |].
  simpl. destruct Hev as [-> | [-> | [name ->]]]; rewrite ?H1, ?H2, ?H3; exact IH.
Qed.

(** A run of [shellCmd]: preparation, at most one start of the front end,
    then the front end and, in interactive mode, the deferred stop. *)
Lemma shellCmd_shape (args : list string) :
  exists pre starts after,
    trace (shellCmd env args) = (pre ++ starts ++ after)%list
    /\ Forall preparation_event pre
    /\ count is_list pre <= 1
    /\ count is_token_request pre <= 1
    /\ front_end_start env args (value (shellCmd env args)) starts
    /\ Forall front_end_event after.
Proof.
  assert (Hcases : (List.length args < 1 \/ 2 < List.length args \/ nth 0 args "" = "")
                   \/ (nth 0 args "" <> ""
                       /\ (List.length args = 1 \/ List.length args = 2))).
  { destruct (string_dec (nth 0 args "") ""); [tauto |].
    destruct (Nat.eq_dec (List.length args) 1); [tauto |].
    destruct (Nat.eq_dec (List.length args) 2); [tauto |].
    left. lia. }
  destruct Hcases as [Hbad | [Href Hlen]].
  - destruct (shellCmd_argument_errors_have_no_effect env args Hbad) as [err ->].
    exists [], [], []. unfold count; cbn. repeat split; auto. now left.
  - rewrite (shellCmd_accepted env args Href Hlen).
    destruct (RunE_body_shape args (nth 0 args ""))
      as (pre & starts & after & Ht & Hpre & Hl & Hk & Hs & Hstart & Hafter).
    unfold value at 1, trace at 1. cbn [fst snd]. rewrite Ht. unfold with_spinner.
    destruct (Nat.eqb (List.length args) 1).
    + exists (SpinnerStart :: pre), starts, (after ++ [SpinnerStop])%list.
      split; [cbn; now rewrite <- !app_assoc |].
      split; [constructor; [now left | exact Hpre] |].
      rewrite !count_cons. cbn.
      repeat split; auto.
      apply Forall_app. split; [exact Hafter |].
      constructor; [right; now left | constructor].
    + exists pre, starts, after. repeat split; auto.
Qed.

(** X19: whenever [db shell] starts the front end, what the command returns is
    what the front end returned, and the line given to the front end is the
    second argument. *)
Theorem shellCmd_returns_what_the_front_end_returns
        (args : list string) (path welcome : string) :
  (In (ShellRun path welcome) (trace (shellCmd env args)) ->
   value (shellCmd env args) = outcome (RunShell_script env path))
  /\ (forall line,
         In (ShellRunLine path welcome line) (trace (shellCmd env args)) ->
         line = nth 1 args ""
         /\ value (shellCmd env args) = outcome (RunShellLine_script env path line)).
Proof.
  destruct (shellCmd_shape args)
    as (pre & starts & after & -> & Hpre & _ & _ & Hstart & Hafter).
  rewrite Forall_forall in Hpre, Hafter.
  split; [| intros line]; intros Hin;
    rewrite !in_app_iff in Hin; destruct Hin as [Hin | [Hin | Hin]].
  - apply Hpre in Hin. destruct Hin as [H | [H | [n H]]]; discriminate H.
  - destruct Hstart as [-> | [(p & w & -> & _ & Hv) | (p & w & -> & _ & _ & Hv)]];
      simpl in Hin; [contradiction | destruct Hin as [Hin | []] ..];
      try discriminate Hin.
    injection Hin as -> ->. exact Hv.
  - apply Hafter in Hin. destruct Hin as [H | [H | [n H]]]; discriminate H.
  - apply Hpre in Hin. destruct Hin as [H | [H | [n H]]]; discriminate H.
  - destruct Hstart as [-> | [(p & w & -> & _ & Hv) | (p & w & -> & _ & _ & Hv)]];
      simpl in Hin; [contradiction | destruct Hin as [Hin | []] ..];
      try discriminate Hin.
    injection Hin as -> -> <-. split; [reflexivity | exact Hv].
  - apply Hafter in Hin. destruct Hin as [H | [H | [n H]]]; discriminate H.
Qed.

(** X20: in one invocation [db shell] lists the directory at most once,
    requests at most one token and starts the front end at most once; every
    token it requests expires after one day and is not read-only. *)
Theorem shellCmd_calls_each_service_at_most_once (args : list string) :
  count is_list (trace (shellCmd env args)) <= 1
  /\ count is_token_request (trace (shellCmd env args)) <= 1
  /\ count is_shell_start (trace (shellCmd env args)) <= 1
  /\ (forall name expiration readOnly,
         In (DatabasesToken name expiration readOnly) (trace (shellCmd env args)) ->
         expiration = "1d" /\ readOnly = false).
Proof.
  destruct (shellCmd_shape args)
    as (pre & starts & after & -> & Hpre & Hl & Hk & Hstart & Hafter).
  rewrite !count_app.
  rewrite (count_front_end_events is_list after Hafter),
    (count_front_end_events is_token_request after Hafter),
    (count_front_end_events is_shell_start after Hafter); try reflexivity.
  rewrite (count_preparation_events is_shell_start pre Hpre); try reflexivity.
  assert (Hs : count is_list starts = 0 /\ count is_token_request starts = 0
               /\ count is_shell_start starts <= 1).
  { destruct Hstart as [-> | [(p & w & -> & _) | (p & w & -> & _)]];
      unfold count; cbn; lia. }
  destruct Hs as (-> & -> & Hs).
  split; [lia | split; [lia | split; [lia |]]].
  intros name expiration readOnly Hin.
  rewrite Forall_forall in Hpre, Hafter.
  rewrite !in_app_iff in Hin. destruct Hin as [Hin | [Hin | Hin]].
  - apply Hpre in Hin. destruct Hin as [H | [H | [n H]]]; try discriminate H.
    injection H as _ -> ->. now split.
  - destruct Hstart as [-> | [(p & w & -> & _) | (p & w & -> & _)]];
      simpl in Hin; [contradiction | destruct Hin as [Hin | []] ..];
      discriminate Hin.
  - apply Hafter in Hin. destruct Hin as [H | [H | [n H]]]; discriminate H.
Qed.

End ShellShape.

(** ** References that cannot be taken for a URL *)

Lemma getScheme_loop_colon (rest rawURL : string) :
  forall i scheme rest',
    url.getScheme_loop i rest rawURL = Ok (scheme, rest') ->
    scheme <> "" ->
    strings.CountByte rest ":" <> 0.
Proof.
  induction rest as [|c rest IH]; intros i scheme rest' H Hs; simpl in H.
  - congruence.
  - cbn [strings.CountByte].
    destruct (url.isLetter c).
    { specialize (IH (S i) scheme rest' H Hs). lia. }
    destruct (url.isDigit c || url.one_of c "+-.").
    { destruct (Nat.eqb i 0); [congruence |].
      specialize (IH (S i) scheme rest' H Hs). lia. }
    destruct (Ascii.eqb c ":"); [simpl; lia | congruence].
Qed.

Lemma ParseRequestURI_scheme_has_colon (s : string) (u : url.URL) :
  url.ParseRequestURI s = Ok u ->
  url.Scheme u <> "" ->
  strings.CountByte s ":" <> 0.
Proof.
  unfold url.ParseRequestURI, url.parse.
  destruct (url.stringContainsCTLByte s); [discriminate |].
  destruct ((s =? "") && true); [discriminate |].
  destruct (s =? "*"); [intros [= <-] Hs; now elim Hs |].
  destruct (url.getScheme s) as [[scheme rest]|e] eqn:Hscheme; [| discriminate].
  intros H Hu.
  apply (getScheme_loop_colon s s 0 scheme rest Hscheme).
  intros ->. apply Hu. clear Hu Hscheme. cbn [strings.ToLower] in H.
  destruct (strings.HasSuffix rest "?" && Nat.eqb (strings.CountByte rest "?") 1);
    [| destruct (strings.Cut rest "?") as [[before after] found]];
    match type of H with
    | context [strings.HasPrefix ?r "/"] => destruct (strings.HasPrefix r "/")
    end; cbn [String.eqb negb] in H; try discriminate H;
    (destruct (url.parse_authority_path _ _ _ _ _) as [u'|e'] eqn:Hp;
     [apply parse_authority_path_scheme in Hp | discriminate H]);
    injection H as <-; exact Hp.
Qed.

(** X21: a reference other than [*] that does not start with a slash and has
    no colon is never taken for a URL, so it is resolved as a name. *)
Theorem reference_without_colon_is_not_a_url (s : string)
        (Hstar : s <> "*")
        (Hslash : strings.HasPrefix s "/" = false)
        (Hcolon : strings.CountByte s ":" = 0) :
  isURL s = false.
Proof.
  unfold isURL. destruct (url.ParseRequestURI s) as [u|e] eqn:Hp; [| reflexivity].
  exfalso. destruct (ParseRequestURI_accepts s u Hp) as [H | [H | H]].
  - contradiction.
  - congruence.
  - now apply (ParseRequestURI_scheme_has_colon s u Hp H).
Qed.

(** ** The token in the endpoint *)

Lemma upto_app (a b : string) : strings.upto (String.length a) (a ++ b) = a.
Proof.
  unfold strings.upto. induction a as [|c a IH]; simpl.
  - destruct b; reflexivity.
  - now rewrite IH.
Qed.

Lemma from_app (a b : string) : strings.from (String.length a) (a ++ b) = b.
Proof.
  unfold strings.from. rewrite strlen_app.
  replace (String.length a + String.length b - String.length a)
    with (String.length b) by lia.
  apply substring_past.
Qed.

Lemma prefix_one (c d : ascii) (s : string) :
  prefix (String c "") (String d s) = Ascii.eqb c d.
Proof.
  cbn [prefix]. destruct (ascii_dec c d) as [-> | Hn].
  - rewrite Ascii.eqb_refl. destruct s; reflexivity.
  - symmetry. now apply Ascii.eqb_neq.
Qed.

Lemma Index_from_first (c : ascii) (a b : string) :
  forall i, strings.CountByte a c = 0 ->
            strings.Index_from i (a ++ String c b) (String c "")
            = Some (i + String.length a).
Proof.
  induction a as [|d a IH]; intros i Hc.
  - cbn [append strings.Index_from]. rewrite prefix_one, Ascii.eqb_refl.
    simpl. f_equal. lia.
  - cbn [strings.CountByte] in Hc.
    destruct (Ascii.eqb d c) eqn:Hd; [discriminate Hc |].
    cbn [append strings.Index_from]. rewrite prefix_one.
    rewrite Ascii.eqb_sym, Hd. rewrite IH by exact Hc. simpl. f_equal. lia.
Qed.

(** X22: when the URL has no question mark, cutting the result of
    [addTokenAsQueryParameter] at its first question mark gives back the URL
    and [jwt=] followed by the token. *)
Theorem addTokenAsQueryParameter_cuts_back (dbUrl token : string)
        (Hquery : strings.CountByte dbUrl "?" = 0) :
  strings.Cut (addTokenAsQueryParameter dbUrl token) "?"
  = (dbUrl, "jwt=" ++ token, true).
Proof.
  unfold addTokenAsQueryParameter, strings.Cut, strings.Index.
  change ("?jwt=" ++ token) with (String "?" ("jwt=" ++ token)).
  rewrite (Index_from_first "?" dbUrl ("jwt=" ++ token) 0 Hquery).
  cbn [Nat.add String.length].
  rewrite upto_app.
  replace (String.length dbUrl + 1) with (String.length (dbUrl ++ "?"))
    by (rewrite strlen_app; reflexivity).
  replace (dbUrl ++ String "?" ("jwt=" ++ token))
    with ((dbUrl ++ "?") ++ ("jwt=" ++ token))
    by (rewrite str_app_assoc; reflexivity).
  now rewrite from_app.
Qed.

(** ** Dispatch, once more *)

Section DispatchRuns.

Context {Ctx Response : Type}.
Variable split : string -> result (list string).
Variable marshal : json -> result string.
Variable server : http.Request -> result Response.


(** X24: the token has no part in the request but its header: for two tokens
    the dispatcher builds requests with the same method, URL, body and host. *)
Theorem doQueryContext_token_only_in_the_header
        (ctx : Ctx) (endpoint token1 token2 stmt : string)
        (req1 req2 : http.Request)
        (H1 : trace (doQueryContext split marshal server ctx endpoint token1 stmt)
              = [HttpDo req1])
        (H2 : trace (doQueryContext split marshal server ctx endpoint token2 stmt)
              = [HttpDo req2]) :
  http.Method req1 = http.Method req2
  /\ http.URL req1 = http.URL req2
  /\ http.Body req1 = http.Body req2
  /\ http.Host req1 = http.Host req2.
Proof.
  revert H1 H2. unfold doQueryContext.
  destruct (split stmt) as [stmts|e]; [| discriminate].
  destruct (marshal _) as [body|e]; [| discriminate].
  destruct (http.NewRequestWithContext ctx "POST" endpoint body) as [req|e];
    [| discriminate].
  destruct (token1 =? ""), (token2 =? ""); cbn;
    intros [= <-] [= <-]; repeat split; reflexivity.
Qed.

End DispatchRuns.

(** * The further properties at concrete inputs *)

(** X3 at a location the service does not know. *)
Lemma X3_witness_unknown_location :
  db_create.createCmd (CreateScenario.env "nowhere" "seed.db") ["x"]
  = (Some (errorString "location 'nowhere' is not a valid one"), []).
Proof.
  apply (createCmd_rejects_unknown_location
           (CreateScenario.env "nowhere" "seed.db") ["x"] tt "x" CreateScenario.client);
    try reflexivity.
  discriminate.
Defined.

(** X4 at a creation with a seed file. *)
Lemma X4_witness_create_call :
  db_create.chosen_name (CreateScenario.env "ams" "seed.db") ["x"] = Ok "x"
  /\ "ams" = requested_region (CreateScenario.env "ams" "seed.db")
  /\ "latest" = requested_image (CreateScenario.env "ams" "seed.db").
Proof.
  destruct (createCmd_creates_only_after_local_checks
              (CreateScenario.env "ams" "seed.db") ["x"] "x" "ams" "latest")
    as (H1 & H2 & H3 & _).
  - vm_compute. auto 10.
  - repeat split; assumption.
Defined.

(** X5 at a seed file the service rejects. *)
Lemma X5_witness_delete :
  exists client f err,
    db_create.createTursoClient (CreateScenario.env "ams" "broken.db") = Ok client
    /\ db_create.chosen_name (CreateScenario.env "ams" "broken.db") ["x"] = Ok "x"
    /\ db_create.seed_response client "x" f = Some err
    /\ db_create.result_of
         (db_create.createCmd (CreateScenario.env "ams" "broken.db") ["x"])
       = Some (wrapError ("could not create database " ++ "x") err).
Proof.
  apply (createCmd_deletes_only_after_failed_seed
           (CreateScenario.env "ams" "broken.db") ["x"] "x").
  vm_compute. auto 10.
Defined.

(** X6 at a seed file the service rejects. *)
Lemma X6_witness_rollback :
  db_create.result_of (db_create.createCmd (CreateScenario.env "ams" "broken.db") ["x"])
  = Some (wrapError ("could not create database " ++ "x") (errorString "seed rejected"))
  /\ db_create.effects (db_create.createCmd (CreateScenario.env "ams" "broken.db") ["x"])
     = [db_create.Open "broken.db";
        db_create.SpinnerNew
          (spinner_text (CreateScenario.env "ams" "broken.db") CreateScenario.client "x");
        db_create.DatabasesCreate "x" "ams" "latest";
        db_create.DatabasesSeed "x" "broken.db";
        db_create.DatabasesDelete "x";
        db_create.Close "broken.db";
        db_create.BarStop].
Proof.
  apply (createCmd_failed_seed_is_rolled_back
           (CreateScenario.env "ams" "broken.db") ["x"] "x" "broken.db"
           CreateScenario.client (errorString "seed rejected"));
    try reflexivity.
  vm_compute. auto 10.
Defined.

(** X7 at a service that creates the database but not the instance. *)
Lemma X7_witness_no_instance :
  db_create.result_of (db_create.createCmd CreateScenario.env_no_instance [""])
  = Some (errorString "quota")
  /\ (forall m, ~ In (db_create.DatabasesDelete m)
                     (db_create.effects
                        (db_create.createCmd CreateScenario.env_no_instance [""])))
  /\ (forall id s, ~ In (db_create.AddDatabase id s)
                        (db_create.effects
                           (db_create.createCmd CreateScenario.env_no_instance [""]))).
Proof.
  apply (createCmd_failed_instance_is_not_rolled_back
           CreateScenario.env_no_instance [""] "brave-otter" "" "s3cret" "fra" "canary"
           CreateScenario.no_instance_client (errorString "quota"));
    try reflexivity.
  vm_compute. auto 10.
Defined.

(** X12 at a service that refuses the creation, with a valid seed file. *)
Lemma X12_witness_file_left_open :
  In (db_create.Open (db_create.fromFileFlag Outage.create_env))
     (db_create.effects (db_create.createCmd Outage.create_env ["x"]))
  /\ forall g, ~ In (db_create.Close g)
                    (db_create.effects (db_create.createCmd Outage.create_env ["x"])).
Proof.
  apply (createCmd_leaves_the_file_open_when_not_created
           Outage.create_env ["x"] "seed.db" "x" "fra" "latest"
           Outage.refusing_client (errorString "quota"));
    try reflexivity.
  vm_compute. auto 10.
Defined.

(** X13 at a creation with a generated name. *)
Lemma X13_witness_instance :
  "" = ""
  /\ "fra" = requested_region (CreateScenario.env "" "")
  /\ "latest" = requested_image (CreateScenario.env "" "")
  /\ db_create.chosen_name (CreateScenario.env "" "") [] = Ok "brave-otter"
  /\ exists client res,
      db_create.createTursoClient (CreateScenario.env "" "") = Ok client
      /\ db_create.create_response client "brave-otter" "fra" "latest" = Ok res
      /\ "s3cret" = db_create.Password res.
Proof.
  apply (createCmd_instance_gets_the_returned_password
           (CreateScenario.env "" "") [] "brave-otter" "" "s3cret" "fra" "latest").
  vm_compute. auto 10.
Defined.

(** X14 at an invocation without arguments. *)
Lemma X14_witness_no_arguments :
  exists err, shellCmd Scenario.env [] = (Some err, []).
Proof.
  apply (shellCmd_argument_errors_have_no_effect Scenario.env []).
  left. simpl. lia.
Defined.

(** X15 at a client that cannot be created. *)
Lemma X15_witness_no_client :
  (exists msg,
      value (shellCmd (Outage.shell_env (Err (errorString "not logged in"))) ["my-db"])
      = Some (wrapError msg (errorString "not logged in")))
  /\ trace (shellCmd (Outage.shell_env (Err (errorString "not logged in"))) ["my-db"])
     = with_spinner ["my-db"] [].
Proof.
  apply (shellCmd_setup_failure_reaches_no_service
           (Outage.shell_env (Err (errorString "not logged in"))) ["my-db"]
           (errorString "not logged in")).
  - discriminate.
  - left; reflexivity.
  - left; reflexivity.
Defined.

(** X16 at a directory that cannot be listed. *)
Lemma X16_witness_no_listing :
  shellCmd (Outage.shell_env (Ok Outage.no_listing)) ["libsql://x.example.io"]
  = (Some (errorString "service unavailable"),
     with_spinner ["libsql://x.example.io"] [DatabasesList]).
Proof.
  apply (shellCmd_url_listing_failure_is_returned
           (Outage.shell_env (Ok Outage.no_listing)) ["libsql://x.example.io"]
           Outage.no_listing tt (errorString "service unavailable"));
    try reflexivity.
  left; reflexivity.
Defined.

(** X17 at a service that issues no token. *)
Lemma X17_witness_no_token :
  shellCmd (Outage.shell_env (Ok Outage.no_token)) ["my-db"; "select 1"]
  = (Some (errorString "not allowed"),
     with_spinner ["my-db"; "select 1"]
                  [DatabasesList; DatabasesToken "my-db" "1d" false]).
Proof.
  apply (shellCmd_token_failure_stops_before_the_front_end
           (Outage.shell_env (Ok Outage.no_token)) ["my-db"; "select 1"]
           Outage.no_token tt Scenario.my_db (errorString "not allowed"));
    try reflexivity.
  - discriminate.
  - right; reflexivity.
Defined.

(** X18 at a URL that matches no known database. *)
Lemma X18_witness_external_url :
  exists after,
    trace (shellCmd Scenario.env ["libsql://elsewhere.example.org"; "select 1"])
    = with_spinner
        ["libsql://elsewhere.example.org"; "select 1"]
        (DatabasesList
           :: ShellRunLine "libsql://elsewhere.example.org"
                           ("Connected to " ++ "libsql://elsewhere.example.org"
                                            ++ welcome_help)
                           "select 1"
           :: after)
    /\ Forall front_end_event after.
Proof.
  apply (shellCmd_raw_endpoint_is_passed_unchanged
           Scenario.env ["libsql://elsewhere.example.org"; "select 1"]
           Scenario.client tt);
    try reflexivity.
  - discriminate.
  - right. split; [reflexivity | discriminate].
Defined.

(** X21 at the name of the scenario. *)
Lemma X21_witness_my_db : isURL "my-db" = false.
Proof.
  apply (reference_without_colon_is_not_a_url "my-db"); [discriminate | reflexivity ..].
Defined.

(** X22 at the endpoint of the scenario. *)
Lemma X22_witness_endpoint :
  strings.Cut (addTokenAsQueryParameter "https://my-db-org.example.io" "tok.my-db") "?"
  = ("https://my-db-org.example.io", "jwt=" ++ "tok.my-db", true).
Proof.
  apply (addTokenAsQueryParameter_cuts_back "https://my-db-org.example.io" "tok.my-db").
  reflexivity.
Defined.

(** X24 at one statement, with and without a token. *)
Lemma X24_witness_two_tokens :
  http.Method (Outage.request [("Authorization", "Bearer tok")])
  = http.Method (Outage.request [])
  /\ http.URL (Outage.request [("Authorization", "Bearer tok")])
     = http.URL (Outage.request [])
  /\ http.Body (Outage.request [("Authorization", "Bearer tok")])
     = http.Body (Outage.request [])
  /\ http.Host (Outage.request [("Authorization", "Bearer tok")])
     = http.Host (Outage.request []).
Proof.
  apply (doQueryContext_token_only_in_the_header
           Scenario.split Scenario.marshal Scenario.server tt
           "https://my-db-org.example.io" "tok" "" "select 1");
    reflexivity.
Defined.
